(** * PyAppAuto: the [Instance] window-automation facade

    A shallow embedding of [pyappauto/__init__.py].  The class [Instance]
    keeps four attributes and every method is a short sequence of calls
    into modules that are not part of the package (win32gui, win32api,
    win32ui, pygetwindow, subprocess, cv2, numpy, os, time, threading).
    Those calls are the observable behaviour of the program, so each one is
    a [Call]; a method is a computation in a state-and-error monad that asks
    an oracle, standing for the operating system and the libraries, for the
    outcome of each call and appends the call and its outcome to a log.
    Attribute assignments survive an exception, as they do in Python. *)

From Stdlib Require Import ZArith List String Ascii Bool Lia.
From Stdlib Require Import Floats.PrimFloat.
From Stdlib Require Import DecimalString.
From ExtLib Require Import Structures.Monad Structures.MonadExc.
Import ListNotations MonadNotation.

Set Warnings "-inexact-float".
Local Open Scope string_scope.
Local Open Scope list_scope.
Local Open Scope Z_scope.
Local Open Scope monad_scope.

(** ** Python values *)

(** [if x:] on an [int]. *)
Definition truthy_int (z : Z) : bool := negb (z =? 0).

(** [if x:] on an [int | None], the type of [Instance._hwnd]. *)
Definition truthy (h : option Z) : bool :=
  match h with
  | Some z => truthy_int z
  | None => false
  end.

(** [str(n)] for an [int]. *)
Definition str_of_int (n : Z) : string := NilZero.string_of_int (Z.to_int n).

(** [ord(c)] for the characters a [string] can hold (code points 0..255). *)
Definition ord (c : ascii) : Z := Z.of_N (N_of_ascii c).

(** [str.lower] on code points 0..255: the ASCII capitals and the Latin-1
    capitals U+00C0..U+00DE other than the multiplication sign U+00D7 move
    up by 32; every other character is left alone. *)
Definition lower_char (c : ascii) : ascii :=
  let n := ord c in
  if ((65 <=? n) && (n <=? 90)) || ((192 <=? n) && (n <=? 222) && negb (n =? 215))
  then ascii_of_N (Z.to_N (n + 32))
  else c.

Fixpoint lower (s : string) : string :=
  match s with
  | EmptyString => EmptyString
  | String c r => String (lower_char c) (lower r)
  end.

(** [l[i]] for a Python list and an [int] index: negative indices count from
    the end, and an index outside [-len(l), len(l)) has no element. *)
Definition py_index {A} (l : list A) (i : Z) : option A :=
  let n := Z.of_nat (List.length l) in
  if 0 <=? i then nth_error l (Z.to_nat i)
  else if 0 <=? n + i then nth_error l (Z.to_nat (n + i))
  else None.

(** The double quote character, written inside f-strings of the source. *)
Definition dquote : string := String (ascii_of_nat 34) EmptyString.

(** ** Objects of the libraries *)

(** A [subprocess.Popen] object; it has no [__bool__], so it is always true. *)
Record Popen := { pid : Z }.

(** A [numpy.ndarray]: its [shape] and its raw buffer. *)
Record ndarray := { shape : list Z; buffer : list Byte.byte }.

(** A window rectangle [(left, top, right, bottom)]. *)
Definition rect_t : Type := Z * Z * Z * Z.

(** The [key] argument of [press_key]: [int | str]. *)
Inductive key_t :=
| KeyInt (k : Z)
| KeyStr (s : string).

(** ** Constants of win32con and cv2 *)
Module win32con.
Definition WM_CLOSE : Z := 0x0010.
Definition WM_KEYDOWN : Z := 0x0100.
Definition WM_KEYUP : Z := 0x0101.
Definition WM_CHAR : Z := 0x0102.
Definition WM_LBUTTONDOWN : Z := 0x0201.
Definition WM_LBUTTONUP : Z := 0x0202.
Definition WM_RBUTTONDOWN : Z := 0x0204.
Definition WM_RBUTTONUP : Z := 0x0205.
Definition MK_LBUTTON : Z := 0x0001.
Definition MK_RBUTTON : Z := 0x0002.
Definition VK_RETURN : Z := 0x0D.
Definition VK_TAB : Z := 0x09.
Definition SW_NORMAL : Z := 1.
Definition SW_MAXIMIZE : Z := 3.
Definition HWND_TOP : Z := 0.
Definition SWP_NOSIZE : Z := 0x0001.
Definition SWP_NOMOVE : Z := 0x0002.
Definition SWP_NOZORDER : Z := 0x0004.
Definition SRCCOPY : Z := 0x00CC0020.
End win32con.

Module cv2.
Definition COLOR_BGR2RGB : Z := 4.
Definition TM_CCOEFF_NORMED : Z := 5.
End cv2.

(** ** Calls that leave the package *)

Inductive Call :=
| print (line : string)
| Thread_start_close_handler
| time_sleep (secs : float)
| os_path_exists (path : string)
| subprocess_Popen (exe_path : string)
| Popen_terminate (p : Popen)
| gw_getWindowsWithTitle (title : string)
| win32gui_IsWindow (h : option Z)
| win32gui_PostMessage (h : option Z) (msg wparam lparam : Z)
| win32gui_SendMessage (h : option Z) (msg wparam lparam : Z)
| win32gui_SetWindowPos (h : option Z) (insert_after x y cx cy flags : Z)
| win32gui_ShowWindow (h : option Z) (cmd : Z)
| win32gui_GetWindowRect (h : option Z)
| win32gui_GetWindowDC (h : option Z)
| win32api_EnumDisplayMonitors
| win32api_MAKELONG (low high : Z)
| win32ui_CreateDCFromHandle (dc : Z)
| dc_CreateCompatibleDC (dc_obj : Z)
| win32ui_CreateBitmap
| bitmap_CreateCompatibleBitmap (bmp dc_obj width height : Z)
| dc_SelectObject (mem_dc bmp : Z)
| dc_BitBlt (mem_dc : Z) (dst size : Z * Z) (src_dc : Z) (src : Z * Z) (rop : Z)
| bitmap_GetInfo (bmp : Z)
| bitmap_GetBitmapBits (bmp : Z) (as_bytes : bool)
| np_frombuffer_uint8 (bits : list Byte.byte)
| ndarray_reshape (a : ndarray) (d0 d1 d2 : Z)
| cv2_imread (path : string)
| cv2_cvtColor (img : ndarray) (code : Z)
| cv2_matchTemplate (img : ndarray) (templ : option ndarray) (method : Z)
| cv2_minMaxLoc (res : ndarray).

(** What each call hands back when it returns normally. *)
Definition answer (c : Call) : Type :=
  match c with
  | print _ | Thread_start_close_handler | time_sleep _ => unit
  | os_path_exists _ => bool
  | subprocess_Popen _ => Popen
  | Popen_terminate _ => unit
  | gw_getWindowsWithTitle _ => list Z          (* the [_hWnd] of each window *)
  | win32gui_IsWindow _ => bool
  | win32gui_PostMessage _ _ _ _ => unit
  | win32gui_SendMessage _ _ _ _ => Z
  | win32gui_SetWindowPos _ _ _ _ _ _ _ => unit
  | win32gui_ShowWindow _ _ => Z
  | win32gui_GetWindowRect _ => rect_t
  | win32gui_GetWindowDC _ => Z
  | win32api_EnumDisplayMonitors => list (Z * Z * rect_t)
  | win32api_MAKELONG _ _ => Z
  | win32ui_CreateDCFromHandle _ => Z
  | dc_CreateCompatibleDC _ => Z
  | win32ui_CreateBitmap => Z
  | bitmap_CreateCompatibleBitmap _ _ _ _ => unit
  | dc_SelectObject _ _ => unit
  | dc_BitBlt _ _ _ _ _ _ => unit
  | bitmap_GetInfo _ => Z * Z                   (* bmHeight, bmWidth *)
  | bitmap_GetBitmapBits _ _ => list Byte.byte
  | np_frombuffer_uint8 _ => ndarray
  | ndarray_reshape _ _ _ _ => ndarray
  | cv2_imread _ => option ndarray               (* None for an unreadable file *)
  | cv2_cvtColor _ _ => ndarray
  | cv2_matchTemplate _ _ _ => ndarray
  | cv2_minMaxLoc _ => float * float * (Z * Z) * (Z * Z)
  end.

(** ** Exceptions *)

(** Modelled from the spec: the exception classes of [pyappauto.utils.errors],
    a module of the package that is imported by [__init__.py] but is not among
    the source files; only the class names matter.  The last three
    constructors are Python's own [IndexError] and [AttributeError], and any
    exception raised inside a library call. *)
Inductive exn :=
| ProcessAlreadyOpened
| InvalidPath
| NoHwnd
| NoOpenedProcess
| InvalidScreen
| IndexError
| AttributeError
| LibraryError (what : string).

Inductive Outcome (A : Type) :=
| Returned (a : A)
| Raised (e : exn).
Arguments Returned {A} a.
Arguments Raised {A} e.

(** ** The instance and the monad *)

Record Instance := {
  _hwnd : option Z;
  __process : option Popen;
  __kill : bool;
  _debug : bool
}.

(** One entry of the log: a call and how it ended. *)
Record Event := Ev { ev_call : Call; ev_out : Outcome (answer ev_call) }.

Notation "c ~> v" := (Ev c (Returned v)) (at level 70, no associativity).

Record St := { self : Instance; log : list Event }.

(** The world outside the package: given what happened so far, the outcome
    of the next call. *)
Definition Oracle := list Event -> forall c : Call, Outcome (answer c).

Definition M (A : Type) : Type := Oracle -> St -> Outcome A * St.

#[global] Instance Monad_M : Monad M := {
  ret := fun _ a _ s => (Returned a, s);
  bind := fun _ _ m k orc s =>
    match m orc s with
    | (Returned a, s') => k a orc s'
    | (Raised e, s') => (Raised e, s')
    end
}.

#[global] Instance MonadExc_M : MonadExc exn M := {
  raise := fun _ e _ s => (Raised e, s);
  catch := fun _ m h orc s =>
    match m orc s with
    | (Returned a, s') => (Returned a, s')
    | (Raised e, s') => h e orc s'
    end
}.

(** One call: ask the oracle, record the call and its outcome; an exception
    raised inside the call propagates. *)
Definition call (c : Call) : M (answer c) :=
  fun orc s =>
    let out := orc (log s) c in
    (out, {| self := self s; log := log s ++ [Ev c out] |}).

Definition get_self : M Instance := fun _ s => (Returned (self s), s).

Definition put_self (i : Instance) : M unit :=
  fun _ s => (Returned tt, {| self := i; log := log s |}).

Definition set_hwnd (h : option Z) : M unit :=
  i <- get_self ;;
  put_self {| _hwnd := h; __process := __process i; __kill := __kill i; _debug := _debug i |}.

Definition set_process (p : option Popen) : M unit :=
  i <- get_self ;;
  put_self {| _hwnd := _hwnd i; __process := p; __kill := __kill i; _debug := _debug i |}.

Definition set_kill (b : bool) : M unit :=
  i <- get_self ;;
  put_self {| _hwnd := _hwnd i; __process := __process i; __kill := b; _debug := _debug i |}.

(** ** class Instance *)

(** [Instance.__debug] *)
Definition __debug (title content : string) : M unit :=
  i <- get_self ;;
  if negb (_debug i) then ret tt
  else call (print ("[DEBUG] " ++ title ++ ": " ++ content)%string) ;; ret tt.

(** [Instance.__init__]: the object under construction is [self]. *)
Definition __init__ (hwnd : option Z) (debug : bool) : M unit :=
  put_self {| _hwnd := hwnd; __process := None; __kill := false; _debug := debug |} ;;
  if truthy hwnd then call Thread_start_close_handler else ret tt.

(** [Instance.close] *)
Definition close : M unit :=
  i <- get_self ;;
  if __kill i then ret tt
  else
    i <- get_self ;;
    if negb (truthy (_hwnd i)) then raise NoOpenedProcess
    else
      set_kill true ;;
      __debug "Processing" "Closing application." ;;
      i <- get_self ;;
      match __process i with
      | Some p =>
          __debug "Processing" "Closing subprocess." ;;
          call (Popen_terminate p)
      | None =>
          call (win32gui_PostMessage (_hwnd i) win32con.WM_CLOSE 0 0)
      end ;;
      set_process None ;;
      set_hwnd None ;;
      __debug "Success" "Closed application.".

(** The guard that opens most methods:
    [if not self._hwnd: raise utils.errors.NoOpenedProcess()]. *)
Definition require_hwnd : M unit :=
  i <- get_self ;;
  if negb (truthy (_hwnd i)) then raise NoOpenedProcess else ret tt.

(** [Instance._close_handler], the body of the polling thread.  The [while]
    loop has no bound, so it runs on fuel: [poll fuel] answers [true] when
    the loop was left and [false] when the fuel ran out inside it. *)
Fixpoint poll (fuel : nat) : M bool :=
  match fuel with
  | O => ret false
  | S fuel' =>
      i <- get_self ;;
      if negb (__kill i)
      then
        w <- call (win32gui_IsWindow (_hwnd i)) ;;
        if negb w then ret true
        else call (time_sleep 1%float) ;; poll fuel'
      else ret true
  end.

Definition _close_handler (fuel : nat) : M bool :=
  __debug "Info" "Created close handler." ;;
  left_loop <- poll fuel ;;
  if left_loop
  then __debug "Info" "Detected application close in close handler." ;;
       close ;;
       ret true
  else ret false.

(** [Instance.open] *)
Definition open (exe_path app_title : string) (delay_seconds : float) : M unit :=
  i <- get_self ;;
  if truthy (_hwnd i) then raise ProcessAlreadyOpened
  else
    found <- call (os_path_exists exe_path) ;;
    if negb found then raise InvalidPath
    else
      __debug "Processing" "Creating an application." ;;
      p <- call (subprocess_Popen exe_path) ;;
      set_process (Some p) ;;
      call (time_sleep delay_seconds) ;;
      catch
        (windows <- call (gw_getWindowsWithTitle app_title) ;;
         match py_index windows 0 with
         | Some h => set_hwnd (Some h)
         | None => raise IndexError
         end)
        (fun _ => raise NoHwnd) ;;
      i <- get_self ;;
      if negb (truthy (_hwnd i)) then raise NoHwnd
      else
        __debug "Success" "Created an application." ;;
        call Thread_start_close_handler.

(** [Instance.set_monitor] *)
Definition set_monitor (monitor_number : Z) : M unit :=
  require_hwnd ;;
  monitor_info <- call win32api_EnumDisplayMonitors ;;
  let n := Z.of_nat (List.length monitor_info) in
  if (monitor_number <? n) && (monitor_number >? - n)
  then
    match py_index monitor_info monitor_number with
    | Some (_, _, (screen_left, screen_top, _, _)) =>
        i <- get_self ;;
        call (win32gui_SetWindowPos (_hwnd i) win32con.HWND_TOP
                screen_left screen_top 0 0 win32con.SWP_NOSIZE)
    | None => raise IndexError
    end
  else raise InvalidScreen.

(** [Instance.enter_full_screen] *)
Definition enter_full_screen : M unit :=
  require_hwnd ;;
  __debug "Info" "Entering full screen." ;;
  i <- get_self ;;
  call (win32gui_ShowWindow (_hwnd i) win32con.SW_MAXIMIZE) ;;
  ret tt.

(** [Instance.exit_full_screen] *)
Definition exit_full_screen : M unit :=
  require_hwnd ;;
  __debug "Info" "Exiting full screen." ;;
  i <- get_self ;;
  call (win32gui_ShowWindow (_hwnd i) win32con.SW_NORMAL) ;;
  ret tt.

(** [Instance.get_window_size] *)
Definition get_window_size : M (Z * Z) :=
  require_hwnd ;;
  i <- get_self ;;
  rect <- call (win32gui_GetWindowRect (_hwnd i)) ;;
  let '(r0, r1, r2, r3) := rect in
  let width := r2 - r0 in
  let height := r3 - r1 in
  ret (width, height).

(** [Instance.get_window_position] *)
Definition get_window_position : M (Z * Z) :=
  require_hwnd ;;
  i <- get_self ;;
  rect <- call (win32gui_GetWindowRect (_hwnd i)) ;;
  let '(r0, r1, _, _) := rect in
  let x := if r0 >=? 0 then r0 else 0 in
  let y := if r1 >=? 0 then r1 else 0 in
  ret (x, y).

(** [Instance.set_window_dimensions] *)
Definition set_window_dimensions (width height : Z) : M unit :=
  require_hwnd ;;
  __debug "Info" ("Setting window dimensions to " ++ str_of_int width ++ "x"
                    ++ str_of_int height ++ ".")%string ;;
  '(x, y) <- get_window_position ;;
  i <- get_self ;;
  call (win32gui_SetWindowPos (_hwnd i) 0 x y width height
          (Z.lor win32con.SWP_NOMOVE win32con.SWP_NOZORDER)).

(** [Instance.set_window_position] *)
Definition set_window_position (x y : Z) : M unit :=
  require_hwnd ;;
  __debug "Info" ("Setting window position to (" ++ str_of_int x ++ ", "
                    ++ str_of_int y ++ ").")%string ;;
  i <- get_self ;;
  call (win32gui_SetWindowPos (_hwnd i) win32con.HWND_TOP x y 0 0 win32con.SWP_NOSIZE).

(** [Instance.left_click] *)
Definition left_click (x y : Z) : M unit :=
  require_hwnd ;;
  __debug "Info" ("Left clicking at (" ++ str_of_int x ++ ", "
                    ++ str_of_int y ++ ").")%string ;;
  i <- get_self ;;
  lparam <- call (win32api_MAKELONG x y) ;;
  call (win32gui_SendMessage (_hwnd i) win32con.WM_LBUTTONDOWN win32con.MK_LBUTTON lparam) ;;
  call (time_sleep 0.1%float) ;;
  i <- get_self ;;
  lparam <- call (win32api_MAKELONG x y) ;;
  call (win32gui_SendMessage (_hwnd i) win32con.WM_LBUTTONUP win32con.MK_LBUTTON lparam) ;;
  ret tt.

(** [Instance.right_click] *)
Definition right_click (x y : Z) : M unit :=
  require_hwnd ;;
  __debug "Info" ("Right clicking at (" ++ str_of_int x ++ ", "
                    ++ str_of_int y ++ ").")%string ;;
  i <- get_self ;;
  lparam <- call (win32api_MAKELONG x y) ;;
  call (win32gui_SendMessage (_hwnd i) win32con.WM_RBUTTONDOWN win32con.MK_RBUTTON lparam) ;;
  call (time_sleep 0.1%float) ;;
  i <- get_self ;;
  lparam <- call (win32api_MAKELONG x y) ;;
  call (win32gui_SendMessage (_hwnd i) win32con.WM_RBUTTONUP win32con.MK_RBUTTON lparam) ;;
  ret tt.

(** [for _ in range(2): body] *)
Definition twice (body : M unit) : M unit := body ;; body.

(** [Instance.right_double_click] *)
Definition right_double_click (x y : Z) : M unit :=
  require_hwnd ;;
  twice (right_click x y).

(** [Instance.left_double_click] *)
Definition left_double_click (x y : Z) : M unit :=
  require_hwnd ;;
  twice (left_click x y).

(** The local dict [special_keys] of [press_key], with [k in d] and [d[k]]. *)
Definition special_keys : list (string * Z) :=
  [("enter", win32con.VK_RETURN); ("tab", win32con.VK_TAB)].

Fixpoint dict_get (d : list (string * Z)) (k : string) : option Z :=
  match d with
  | [] => None
  | (k', v) :: d' => if String.eqb k' k then Some v else dict_get d' k
  end.

(** [str(key)] *)
Definition str_of_key (key : key_t) : string :=
  match key with
  | KeyInt k => str_of_int k
  | KeyStr s => s
  end.

(** [Instance.press_key] *)
Definition press_key (key : key_t) : M unit :=
  require_hwnd ;;
  __debug "Info" ("Pressing key " ++ str_of_key key ++ ".")%string ;;
  i <- get_self ;;
  match key with
  | KeyStr s =>
      if (String.length s =? 1)%nat
      then
        match s with
        | String c _ =>
            call (win32gui_SendMessage (_hwnd i) win32con.WM_CHAR (ord c) 0) ;; ret tt
        | EmptyString => ret tt
        end
      else
        match dict_get special_keys (lower s) with
        | Some vk =>
            call (win32gui_SendMessage (_hwnd i) win32con.WM_KEYDOWN vk 0) ;;
            call (time_sleep 0.1%float) ;;
            call (win32gui_SendMessage (_hwnd i) win32con.WM_KEYUP vk 0) ;;
            ret tt
        | None => ret tt
        end
  | KeyInt k =>
      if truthy_int k
      then
        call (win32gui_SendMessage (_hwnd i) win32con.WM_KEYUP k 0) ;;
        call (time_sleep 0.1%float) ;;
        call (win32gui_SendMessage (_hwnd i) win32con.WM_KEYUP k 0) ;;
        ret tt
      else ret tt
  end.

(** [Instance.typewrite] *)
Fixpoint typewrite_chars (text : string) (delay : float) : M unit :=
  match text with
  | EmptyString => ret tt
  | String char rest =>
      i <- get_self ;;
      call (win32gui_SendMessage (_hwnd i) win32con.WM_CHAR (ord char) 0) ;;
      call (time_sleep delay) ;;
      typewrite_chars rest delay
  end.

Definition typewrite (text : string) (delay : float) : M unit :=
  require_hwnd ;;
  __debug "Info" ("Typing " ++ dquote ++ text ++ dquote ++ ".")%string ;;
  typewrite_chars text delay.

(** [t[k]] for a tuple of ints; an index past the end raises [IndexError]. *)
Definition tuple_item (t : list Z) (k : nat) : M Z :=
  match nth_error t k with
  | Some v => ret v
  | None => raise IndexError
  end.

(** [a.shape] where [a] is what [cv2.imread] returned: [None] has no
    attribute [shape]. *)
Definition shape_of (a : option ndarray) : M (list Z) :=
  match a with
  | Some arr => ret (shape arr)
  | None => raise AttributeError
  end.

(** [Instance.find_image_on_screen] *)
Definition find_image_on_screen (image_path : string) (confidence_threshhold : float)
  : M (option (Z * Z)) :=
  require_hwnd ;;
  found <- call (os_path_exists image_path) ;;
  if negb found then raise InvalidPath
  else
    target_image <- call (cv2_imread image_path) ;;
    (* Get the window dimensions *)
    i <- get_self ;;
    rect <- call (win32gui_GetWindowRect (_hwnd i)) ;;
    let '(r0, r1, r2, r3) := rect in
    let width := r2 - r0 in
    let height := r3 - r1 in
    (* Get the window screenshot *)
    i <- get_self ;;
    window_dc <- call (win32gui_GetWindowDC (_hwnd i)) ;;
    dc_obj <- call (win32ui_CreateDCFromHandle window_dc) ;;
    mem_dc <- call (dc_CreateCompatibleDC dc_obj) ;;
    screenshot <- call win32ui_CreateBitmap ;;
    call (bitmap_CreateCompatibleBitmap screenshot dc_obj width height) ;;
    call (dc_SelectObject mem_dc screenshot) ;;
    call (dc_BitBlt mem_dc (0, 0) (width, height) dc_obj (0, 0) win32con.SRCCOPY) ;;
    (* Convert the screenshot to a numpy array *)
    screenshot_info <- call (bitmap_GetInfo screenshot) ;;
    screenshot_data <- call (bitmap_GetBitmapBits screenshot true) ;;
    flat <- call (np_frombuffer_uint8 screenshot_data) ;;
    let '(bmHeight, bmWidth) := screenshot_info in
    img_np <- call (ndarray_reshape flat bmHeight bmWidth 4) ;;
    (* Convert BGR to RGB *)
    img_rgb <- call (cv2_cvtColor img_np cv2.COLOR_BGR2RGB) ;;
    (* Perform template matching *)
    result <- call (cv2_matchTemplate img_rgb target_image cv2.TM_CCOEFF_NORMED) ;;
    mm <- call (cv2_minMaxLoc result) ;;
    let '(min_val, max_val, min_loc, max_loc) := mm in
    let match_loc := max_loc in
    let confidence := max_val in
    (* Calculate the position within the window *)
    shp <- shape_of target_image ;;
    w <- tuple_item shp 1 ;;
    let center_x := fst match_loc + r0 + w / 2 in
    shp <- shape_of target_image ;;
    h <- tuple_item shp 0 ;;
    let center_y := snd match_loc + r1 + h / 2 in
    if PrimFloat.ltb confidence confidence_threshhold then ret None
    else ret (Some (center_x, center_y)).

(** ** The public interface as data *)

(** A call of a public method with its arguments. *)
Inductive Op :=
| op_open (exe_path app_title : string) (delay_seconds : float)
| op_close
| op_set_monitor (monitor_number : Z)
| op_enter_full_screen
| op_exit_full_screen
| op_get_window_size
| op_get_window_position
| op_set_window_dimensions (width height : Z)
| op_set_window_position (x y : Z)
| op_left_click (x y : Z)
| op_right_click (x y : Z)
| op_left_double_click (x y : Z)
| op_right_double_click (x y : Z)
| op_press_key (key : key_t)
| op_typewrite (text : string) (delay : float)
| op_find_image_on_screen (image_path : string) (confidence_threshhold : float).

(** What a method returns: [None], a pair of ints, or a pair or [None]. *)
Inductive value :=
| VNone
| VPair (p : Z * Z)
| VFound (r : option (Z * Z)).

Definition exec (o : Op) : M value :=
  match o with
  | op_open e t d => open e t d ;; ret VNone
  | op_close => close ;; ret VNone
  | op_set_monitor n => set_monitor n ;; ret VNone
  | op_enter_full_screen => enter_full_screen ;; ret VNone
  | op_exit_full_screen => exit_full_screen ;; ret VNone
  | op_get_window_size => p <- get_window_size ;; ret (VPair p)
  | op_get_window_position => p <- get_window_position ;; ret (VPair p)
  | op_set_window_dimensions w h => set_window_dimensions w h ;; ret VNone
  | op_set_window_position x y => set_window_position x y ;; ret VNone
  | op_left_click x y => left_click x y ;; ret VNone
  | op_right_click x y => right_click x y ;; ret VNone
  | op_left_double_click x y => left_double_click x y ;; ret VNone
  | op_right_double_click x y => right_double_click x y ;; ret VNone
  | op_press_key k => press_key k ;; ret VNone
  | op_typewrite t d => typewrite t d ;; ret VNone
  | op_find_image_on_screen p c => r <- find_image_on_screen p c ;; ret (VFound r)
  end.

(** The operations that act on the attached window: all but [open]. *)
Definition acts_on_window (o : Op) : bool :=
  match o with
  | op_open _ _ _ => false
  | _ => true
  end.

Definition is_close (o : Op) : bool :=
  match o with
  | op_close => true
  | _ => false
  end.

(** Something that happens to an instance after its construction: a public
    method is called, or the polling thread runs its body. *)
Inductive Action :=
| act_call (o : Op)
| act_close_handler (fuel : nat).

Definition perform (a : Action) : M unit :=
  match a with
  | act_call o => exec o ;; ret tt
  | act_close_handler fuel => _close_handler fuel ;; ret tt
  end.

(** A history: actions in order, each in the world it meets. *)
Fixpoint run_script (script : list (Oracle * Action)) (s : St) : St :=
  match script with
  | [] => s
  | (orc, a) :: rest => run_script rest (snd (perform a orc s))
  end.

(** The state before the constructor has run. *)
Definition blank : St :=
  {| self := {| _hwnd := None; __process := None; __kill := false; _debug := false |};
     log := [] |}.

(** The states an instance can be in: constructed, then any history. *)
Definition reachable (s : St) : Prop :=
  exists orc hwnd debug script,
    s = run_script script (snd (__init__ hwnd debug orc blank)).

(** ** Reading the log *)

(** The events a computation adds to the log. *)
Definition emitted {A} (m : M A) (orc : Oracle) (s : St) : list Event :=
  skipn (List.length (log s)) (log (snd (m orc s))).

Definition count (p : Call -> bool) (l : list Event) : nat :=
  List.length (filter (fun e => p (ev_call e)) l).

(** Calls into the window system, the process API and the vision library.
    Left out: Python's own [print], [time.sleep], [os.path.exists] and
    thread start, numpy's buffer reshaping, and [win32api.MAKELONG], which
    only packs two words into one integer. *)
Definition is_native (c : Call) : bool :=
  match c with
  | print _ | Thread_start_close_handler | time_sleep _ | os_path_exists _
  | np_frombuffer_uint8 _ | ndarray_reshape _ _ _ _ | win32api_MAKELONG _ _ => false
  | _ => true
  end.

Definition is_Popen (c : Call) : bool :=
  match c with subprocess_Popen _ => true | _ => false end.

Definition is_matchTemplate (c : Call) : bool :=
  match c with cv2_matchTemplate _ _ _ => true | _ => false end.

Definition is_IsWindow (c : Call) : bool :=
  match c with win32gui_IsWindow _ => true | _ => false end.

Definition is_SetWindowPos (c : Call) : bool :=
  match c with win32gui_SetWindowPos _ _ _ _ _ _ _ => true | _ => false end.

(** The messages sent, in order, as (message, wparam). *)
Definition messages (l : list Event) : list (Z * Z) :=
  flat_map (fun e =>
              match ev_call e with
              | win32gui_SendMessage _ msg wparam _ => [(msg, wparam)]
              | win32gui_PostMessage _ msg wparam _ => [(msg, wparam)]
              | _ => []
              end) l.

(** The [SetWindowPos] calls made, in order. *)
Definition set_window_pos_calls (l : list Event) : list Call :=
  filter is_SetWindowPos (map ev_call l).

(** ** Worlds *)

(** A world in which no call raises. *)
Definition never_raises (orc : Oracle) : Prop :=
  forall l c, exists v, orc l c = Returned v.

(** Width and height of a rectangle. *)
Definition rect_size (r : rect_t) : Z * Z :=
  let '(r0, r1, r2, r3) := r in (r2 - r0, r3 - r1).

(** A world that does not change: every call returns, with the same
    answer each time. *)
Record World := {
  w_exists : bool;                      (* os.path.exists *)
  w_windows : list Z;                   (* windows with the title asked for *)
  w_is_window : bool;                   (* IsWindow *)
  w_rect : rect_t;                      (* GetWindowRect *)
  w_monitors : list (Z * Z * rect_t);   (* EnumDisplayMonitors *)
  w_image : option ndarray;             (* cv2.imread *)
  w_match : float * float * (Z * Z) * (Z * Z)   (* cv2.minMaxLoc *)
}.

Definition still_answer (w : World) (c : Call) : answer c :=
  match c return answer c with
  | print _ | Thread_start_close_handler | time_sleep _ => tt
  | os_path_exists _ => w_exists w
  | subprocess_Popen _ => {| pid := 4242 |}
  | Popen_terminate _ => tt
  | gw_getWindowsWithTitle _ => w_windows w
  | win32gui_IsWindow _ => w_is_window w
  | win32gui_PostMessage _ _ _ _ => tt
  | win32gui_SendMessage _ _ _ _ => 0
  | win32gui_SetWindowPos _ _ _ _ _ _ _ => tt
  | win32gui_ShowWindow _ _ => 0
  | win32gui_GetWindowRect _ => w_rect w
  | win32gui_GetWindowDC _ => 11
  | win32api_EnumDisplayMonitors => w_monitors w
  | win32api_MAKELONG low high => Z.lor (Z.land low 0xFFFF) (Z.shiftl (Z.land high 0xFFFF) 16)
  | win32ui_CreateDCFromHandle _ => 12
  | dc_CreateCompatibleDC _ => 13
  | win32ui_CreateBitmap => 14
  | bitmap_CreateCompatibleBitmap _ _ _ _ => tt
  | dc_SelectObject _ _ => tt
  | dc_BitBlt _ _ _ _ _ _ => tt
  | bitmap_GetInfo _ => (snd (rect_size (w_rect w)), fst (rect_size (w_rect w)))
  | bitmap_GetBitmapBits _ _ => []
  | np_frombuffer_uint8 bits => {| shape := [Z.of_nat (List.length bits)]; buffer := bits |}
  | ndarray_reshape a d0 d1 d2 => {| shape := [d0; d1; d2]; buffer := buffer a |}
  | cv2_imread _ => w_image w
  | cv2_cvtColor img _ => img
  | cv2_matchTemplate img _ _ => {| shape := [1; 1]; buffer := [] |}
  | cv2_minMaxLoc _ => w_match w
  end.

Definition still (w : World) : Oracle := fun _ c => Returned (still_answer w c).

(** ** Predicates used by the statements *)

(** A computation keeps a property of the instance's attributes. *)
Definition keeps (P : Instance -> Prop) {A} (m : M A) : Prop :=
  forall orc s, P (self s) -> P (self (snd (m orc s))).

(** The lifecycle invariant: a subprocess reference only with a handle. *)
Definition process_needs_hwnd (i : Instance) : Prop :=
  __process i <> None -> _hwnd i <> None.

(** An event in which [subprocess.Popen] returned a process. *)
Definition starts_process (e : Event) : bool :=
  match ev_call e as c return Outcome (answer c) -> bool with
  | subprocess_Popen _ => fun out => match out with Returned _ => true | Raised _ => false end
  | _ => fun _ => false
  end (ev_out e).

(** An [open] that raised although its subprocess had been started. *)
Definition open_failed_late (a : Action) (orc : Oracle) (s : St) : Prop :=
  match a with
  | act_call (op_open e t d) =>
      (exists err, fst (open e t d orc s) = Raised err) /\
      existsb starts_process (emitted (open e t d) orc s) = true
  | _ => False
  end.

(** Histories in which no [open] failed late. *)
Inductive tidy : St -> Prop :=
| tidy_init orc hwnd debug :
    tidy (snd (__init__ hwnd debug orc blank))
| tidy_step orc a s :
    tidy s -> ~ open_failed_late a orc s -> tidy (snd (perform a orc s)).

(** ** Sample worlds and states *)

Definition sample_image : ndarray := {| shape := [5; 9; 3]; buffer := [] |}.

(** A desktop with one monitor, a window [77] titled as asked, partly off
    the screen to the left, and a readable template of 9 by 5 pixels that
    matches at (30, 40) with score 0.5. *)
Definition desk : World :=
  {| w_exists := true;
     w_windows := [77];
     w_is_window := true;
     w_rect := (-8, 20, 632, 500);
     w_monitors := [(1, 0, (0, 0, 1920, 1080))];
     w_image := Some sample_image;
     w_match := ((-0.25)%float, 0.5%float, (3, 4), (30, 40)) |}.

(** The same desktop when no window carries the title. *)
Definition no_such_window : World :=
  {| w_exists := true;
     w_windows := [];
     w_is_window := false;
     w_rect := (0, 0, 0, 0);
     w_monitors := [];
     w_image := None;
     w_match := (0%float, 0%float, (0, 0), (0, 0)) |}.

(** The same desktop when the path asked for does not exist. *)
Definition no_such_file : World :=
  {| w_exists := false;
     w_windows := [77];
     w_is_window := true;
     w_rect := (0, 0, 0, 0);
     w_monitors := [];
     w_image := None;
     w_match := (0%float, 0%float, (0, 0), (0, 0)) |}.

(** [Instance(hwnd=77)] *)
Definition attached : St := snd (__init__ (Some 77) false (still desk) blank).

(** [Instance()] *)
Definition detached : St := snd (__init__ None false (still desk) blank).

(** [Instance(hwnd=77)] after [close()]. *)
Definition closed_once : St :=
  run_script [(still desk, act_call op_close)] attached.

(** [Instance()] after [open("app.exe", "App")] found no window. *)
Definition orphaned : St :=
  run_script [(still no_such_window, act_call (op_open "app.exe" "App" 2%float))] detached.

(** [Instance(hwnd=77)], [close()], then a successful
    [open("app.exe", "App")]. *)
Definition reopened : St :=
  run_script [(still desk, act_call op_close);
              (still desk, act_call (op_open "app.exe" "App" 2%float))] attached.

(** The kill flag is set. *)
Definition killed (i : Instance) : Prop := __kill i = true.

(** A world in which the window is closed by someone else: [IsWindow] is
    true for the first [n] polls and false from then on; every other call
    is answered as in [still w]. *)
Definition dies_after (n : nat) (w : World) : Oracle :=
  fun l c =>
    match c return Outcome (answer c) with
    | win32gui_IsWindow _ => Returned (count is_IsWindow l <? n)%nat
    | c' => Returned (still_answer w c')
    end.

(** In this world the window is no longer valid once it has been polled
    [n] times. *)
Definition gone_after (n : nat) (orc : Oracle) : Prop :=
  forall l h, (n <= count is_IsWindow l)%nat ->
              orc l (win32gui_IsWindow h) = Returned false.

(** [Instance()] after a successful [open("app.exe", "App")]. *)
Definition opened : St :=
  run_script [(still desk, act_call (op_open "app.exe" "App" 2%float))] detached.

(** ** The effect of [SetWindowPos] *)

(** Where a window is: its position, its size, and the window it was last
    placed behind in the z-order. *)
Record Placement := {
  position : Z * Z;
  dimensions : Z * Z;
  behind : Z
}.

(** The part of the Win32 contract of [SetWindowPos] that the flags
    decide: [SWP_NOSIZE] keeps the size and ignores [cx], [cy];
    [SWP_NOMOVE] keeps the position and ignores [x], [y]; [SWP_NOZORDER]
    keeps the z-order and ignores [hWndInsertAfter].  A flag that is
    absent lets the corresponding arguments take effect. *)
Record obeys_flags (effect : Z -> Z -> Z -> Z -> Z -> Z -> Placement -> Placement)
  : Prop := {
  nosize_keeps : forall a x y cx cy f w,
    Z.land f win32con.SWP_NOSIZE <> 0 -> dimensions (effect a x y cx cy f w) = dimensions w;
  size_takes : forall a x y cx cy f w,
    Z.land f win32con.SWP_NOSIZE = 0 -> dimensions (effect a x y cx cy f w) = (cx, cy);
  nomove_keeps : forall a x y cx cy f w,
    Z.land f win32con.SWP_NOMOVE <> 0 -> position (effect a x y cx cy f w) = position w;
  move_takes : forall a x y cx cy f w,
    Z.land f win32con.SWP_NOMOVE = 0 -> position (effect a x y cx cy f w) = (x, y);
  nozorder_keeps : forall a x y cx cy f w,
    Z.land f win32con.SWP_NOZORDER <> 0 -> behind (effect a x y cx cy f w) = behind w;
  zorder_takes : forall a x y cx cy f w,
    Z.land f win32con.SWP_NOZORDER = 0 -> behind (effect a x y cx cy f w) = a
}.

(** The placement after the [SetWindowPos] calls of a log. *)
Definition placed (effect : Z -> Z -> Z -> Z -> Z -> Z -> Placement -> Placement)
  (l : list Event) (w : Placement) : Placement :=
  fold_left (fun w c =>
               match c with
               | win32gui_SetWindowPos _ a x y cx cy f => effect a x y cx cy f w
               | _ => w
               end)
            (map ev_call l) w.

(** A window manager that does what the flags say. *)
Definition by_the_book (a x y cx cy f : Z) (w : Placement) : Placement :=
  {| position := if Z.land f win32con.SWP_NOMOVE =? 0 then (x, y) else position w;
     dimensions := if Z.land f win32con.SWP_NOSIZE =? 0 then (cx, cy) else dimensions w;
     behind := if Z.land f win32con.SWP_NOZORDER =? 0 then a else behind w |}.

Definition somewhere : Placement :=
  {| position := (100, 120); dimensions := (640, 480); behind := 55 |}.

(** ** Counting native calls *)

(** A computation adds at most [n] native calls to the log, whatever the
    world answers and however it ends. *)
Definition costs (n : nat) {A} (m : M A) : Prop :=
  forall orc s, exists evs,
    log (snd (m orc s)) = log s ++ evs /\ (count is_native evs <= n)%nat.

(** The number of native calls each operation may make. *)
Definition native_budget (o : Op) : nat :=
  match o with
  | op_typewrite text _ => String.length text
  | op_find_image_on_screen _ _ => 14
  | op_left_double_click _ _ | op_right_double_click _ _ => 4
  | _ => 3
  end.

(** ** More of the model *)

(** The read-only property [Instance.hwnd]. *)
Definition Instance_hwnd : M (option Z) :=
  i <- get_self ;;
  ret (_hwnd i).

Definition is_print (c : Call) : bool :=
  match c with print _ => true | _ => false end.

Definition is_Thread_start (c : Call) : bool :=
  match c with Thread_start_close_handler => true | _ => false end.

(** The log without the debug lines. *)
Definition without_prints (l : list Event) : list Event :=
  filter (fun e => negb (is_print (ev_call e))) l.

(** The title lookup of [open] came back with nothing to attach: it
    raised, found no window, or found a window whose handle is 0. *)
Definition lookup_found_nothing (e : Event) : bool :=
  match ev_call e as c return Outcome (answer c) -> bool with
  | gw_getWindowsWithTitle _ =>
      fun out =>
        match out with
        | Raised _ => true
        | Returned [] => true
        | Returned (h :: _) => negb (truthy_int h)
        end
  | _ => fun _ => false
  end (ev_out e).

(** [cv2.imread] returned [None]. *)
Definition unreadable (e : Event) : bool :=
  match ev_call e as c return Outcome (answer c) -> bool with
  | cv2_imread _ =>
      fun out => match out with Returned None => true | _ => false end
  | _ => fun _ => false
  end (ev_out e).

(** A call into the window system or the process API raised. *)
Definition native_raised (e : Event) : bool :=
  is_native (ev_call e) && match ev_out e with Raised _ => true | Returned _ => false end.

(** A world in which the calls picked out by [p] raise and every other
    call is answered as in [still w]. *)
Definition failing (p : Call -> bool) (w : World) : Oracle :=
  fun _ c =>
    if p c then Raised (LibraryError "pywintypes.error")
    else Returned (still_answer w c).

Definition is_PostMessage (c : Call) : bool :=
  match c with win32gui_PostMessage _ _ _ _ => true | _ => false end.

(** A desktop with two monitors side by side. *)
Definition two_monitors : World :=
  {| w_exists := true;
     w_windows := [77];
     w_is_window := true;
     w_rect := (10, 20, 650, 500);
     w_monitors := [(1, 0, (0, 0, 1920, 1080)); (2, 0, (1920, 0, 3840, 1080))];
     w_image := None;
     w_match := (0%float, 0%float, (0, 0), (0, 0)) |}.

(** With debugging off a computation prints nothing and leaves debugging
    off. *)
Definition quiet {A} (m : M A) : Prop :=
  forall orc s,
    _debug (self s) = false ->
    _debug (self (snd (m orc s))) = false
    /\ exists evs,
         log (snd (m orc s)) = log s ++ evs /\ count is_print evs = 0%nat.

(** A world whose calls, when they raise, raise exceptions of the
    libraries and not the package's own. *)
Definition raises_library_errors (orc : Oracle) : Prop :=
  forall l c e, orc l c = Raised e -> exists what, e = LibraryError what.

(** Every event of [evs] is what the world answers to its call after the
    events [before] and the events of [evs] that precede it. *)
Fixpoint answered_by (orc : Oracle) (before evs : list Event) : Prop :=
  match evs with
  | [] => True
  | e :: rest => orc before (ev_call e) = ev_out e /\ answered_by orc (before ++ [e]) rest
  end.

(** * Properties *)

(** ** Proof tools *)

Ltac open_state s :=
  let h := fresh "hwnd" in
  let p := fresh "proc" in
  let k := fresh "kill" in
  let d := fresh "dbg" in
  let l := fresh "lg" in
  destruct s as [[h p k d] l]; cbn in *.

(** Case analysis on the outcome of the next call. *)
Ltac ask orc :=
  match goal with
  | |- context [orc ?l ?c] => destruct (orc l c) eqn:?; cbn
  end.

(** In a world where nothing raises, name the answer of the next call. *)
Ltac answered H :=
  match type of H with
  | never_raises ?orc =>
      match goal with
      | |- context [orc ?l ?c] =>
          let v := fresh "v" in
          let E := fresh "E" in
          destruct (H l c) as [v E]; rewrite E; cbn
      end
  end.

Tactic Notation "name_answer" constr(H) "as" ident(v) :=
  match type of H with
  | never_raises ?orc =>
      match goal with
      | |- context [orc ?l ?c] =>
          let E := fresh "E" in
          destruct (H l c) as [v E]; rewrite E; cbn
      end
  end.

Lemma still_never_raises (w : World) : never_raises (still w).
Proof. intros l c. exists (still_answer w c). reflexivity. Qed.

Lemma emitted_app {A} (m : M A) orc s evs :
  log (snd (m orc s)) = log s ++ evs -> emitted m orc s = evs.
Proof.
  intros H. unfold emitted. rewrite H, skipn_app, skipn_all, Nat.sub_diag.
  reflexivity.
Qed.

Lemma emitted_nil {A} (m : M A) orc s :
  log (snd (m orc s)) = log s -> emitted m orc s = [].
Proof.
  intros H. apply emitted_app. rewrite app_nil_r. exact H.
Qed.

(** *** Keeping a property of the attributes *)

Section Keeps.
Variable P : Instance -> Prop.

Lemma keeps_ret {A} (a : A) : keeps P (ret a).
Proof. intros orc s H. exact H. Qed.

Lemma keeps_raise {A} (e : exn) : keeps P (raise e : M A).
Proof. intros orc s H. exact H. Qed.

Lemma keeps_call (c : Call) : keeps P (call c).
Proof. intros orc s H. exact H. Qed.

Lemma keeps_get_self : keeps P get_self.
Proof. intros orc s H. exact H. Qed.

Lemma keeps_bind {A B} (m : M A) (k : A -> M B) :
  keeps P m -> (forall a, keeps P (k a)) -> keeps P (bind m k).
Proof.
  intros Hm Hk orc s H. cbn. specialize (Hm orc s H).
  destruct (m orc s) as [[a | e] s1]; cbn in *.
  - apply Hk, Hm.
  - exact Hm.
Qed.

Lemma keeps_catch {A} (m : M A) (h : exn -> M A) :
  keeps P m -> (forall e, keeps P (h e)) -> keeps P (catch m h).
Proof.
  intros Hm Hh orc s H. cbn. specialize (Hm orc s H).
  destruct (m orc s) as [[a | e] s1]; cbn in *.
  - exact Hm.
  - apply Hh, Hm.
Qed.

End Keeps.

(** Walks through a computation made of calls, reads, tests and binds. *)
Ltac keeps_step :=
  match goal with
  | H : keeps ?P ?m |- keeps ?P ?m => exact H
  | |- keeps _ (ret _) => apply keeps_ret
  | |- keeps _ (raise _) => apply keeps_raise
  | |- keeps _ (call _) => apply keeps_call
  | |- keeps _ get_self => apply keeps_get_self
  | |- keeps _ (bind _ _) => apply keeps_bind; [ | intros ? ]
  | |- keeps _ (catch _ _) => apply keeps_catch; [ | intros ? ]
  | |- keeps _ (if ?b then _ else _) => destruct b
  | |- keeps _ (match ?x with _ => _ end) => destruct x
  end.

Lemma keeps_require_hwnd P : keeps P require_hwnd.
Proof. unfold require_hwnd. repeat keeps_step. Qed.

Lemma keeps_debug P title content : keeps P (__debug title content).
Proof. unfold __debug. repeat keeps_step. Qed.

Lemma keeps_typewrite_chars P text delay : keeps P (typewrite_chars text delay).
Proof.
  induction text as [| c rest IH]; cbn [typewrite_chars]; repeat keeps_step.
Qed.

Lemma keeps_poll P fuel : keeps P (poll fuel).
Proof.
  induction fuel as [| n IH]; cbn [poll]; repeat keeps_step.
Qed.

Ltac keeps_walk :=
  repeat match goal with
    | |- keeps _ require_hwnd => apply keeps_require_hwnd
    | |- keeps _ (__debug _ _) => apply keeps_debug
    | |- keeps _ (typewrite_chars _ _) => apply keeps_typewrite_chars
    | |- keeps _ (poll _) => apply keeps_poll
    | _ => keeps_step
    end.

Lemma keeps_get_window_position P : keeps P get_window_position.
Proof. unfold get_window_position. keeps_walk. Qed.

Lemma keeps_left_click P x y : keeps P (left_click x y).
Proof. unfold left_click. keeps_walk. Qed.

Lemma keeps_right_click P x y : keeps P (right_click x y).
Proof. unfold right_click. keeps_walk. Qed.

(** No method other than [open] and [close] assigns an attribute. *)
Lemma keeps_exec P o :
  acts_on_window o = true -> is_close o = false -> keeps P (exec o).
Proof.
  intros Ha Hc.
  pose proof (keeps_get_window_position P) as Hg.
  destruct o; try discriminate; cbn [exec];
    unfold set_monitor, enter_full_screen, exit_full_screen, get_window_size,
      set_window_dimensions, set_window_position, left_double_click,
      right_double_click, twice, press_key, typewrite, find_image_on_screen,
      shape_of, tuple_item;
    repeat match goal with
      | |- keeps _ (left_click _ _) => apply keeps_left_click
      | |- keeps _ (right_click _ _) => apply keeps_right_click
      | _ => progress keeps_walk
      end.
Qed.

(** ** The guard on the window handle *)

Lemma require_hwnd_refuses orc s :
  truthy (_hwnd (self s)) = false ->
  require_hwnd orc s = (Raised NoOpenedProcess, s).
Proof.
  intros H. unfold require_hwnd, get_self. cbn. rewrite H. reflexivity.
Qed.

Lemma require_hwnd_passes orc s :
  truthy (_hwnd (self s)) = true ->
  require_hwnd orc s = (Returned tt, s).
Proof.
  intros H. unfold require_hwnd, get_self. cbn. rewrite H. reflexivity.
Qed.

(** A handle that is [None] or [0] stops every method but [open]; [close]
    is stopped only while the kill flag is clear. *)
Lemma falsy_hwnd_stops orc s o :
  acts_on_window o = true ->
  truthy (_hwnd (self s)) = false ->
  exec o orc s =
    if is_close o && __kill (self s)
    then (Returned VNone, s)
    else (Raised NoOpenedProcess, s).
Proof.
  intros Ha Hh.
  destruct o; try discriminate Ha; cbn -[require_hwnd];
    try (unfold set_monitor, enter_full_screen, exit_full_screen, get_window_size,
           get_window_position, set_window_dimensions, set_window_position,
           left_click, right_click, left_double_click, right_double_click,
           press_key, typewrite, find_image_on_screen;
         cbn -[require_hwnd]; rewrite (require_hwnd_refuses _ _ Hh); reflexivity).
  open_state s. destruct kill; cbn; [reflexivity |].
  rewrite Hh. reflexivity.
Qed.

(** C1 (as amended).  With no window handle ([_hwnd] is [None]) every
    operation that acts on the attached window raises [NoOpenedProcess],
    makes no call and leaves the instance as it was; the one exception is
    [close] on an instance whose kill flag is set, which returns [None]
    without raising, again leaving everything as it was. *)
Theorem no_window_handle_stops_operation orc s o :
  acts_on_window o = true ->
  _hwnd (self s) = None ->
  exec o orc s =
    if is_close o && __kill (self s)
    then (Returned VNone, s)
    else (Raised NoOpenedProcess, s).
Proof.
  intros Ha Hh. apply falsy_hwnd_stops; [exact Ha |].
  rewrite Hh. reflexivity.
Qed.

Lemma no_window_handle_stops_operation_witness :
  exec (op_find_image_on_screen "button.png" 0%float) (still desk) detached
  = (Raised NoOpenedProcess, detached)
  /\ exec op_close (still desk) closed_once = (Returned VNone, closed_once).
Proof.
  split.
  - exact (no_window_handle_stops_operation (still desk) detached
             (op_find_image_on_screen "button.png" 0%float) eq_refl eq_refl).
  - exact (no_window_handle_stops_operation (still desk) closed_once
             op_close eq_refl eq_refl).
Defined.

Lemma closed_once_reachable : reachable closed_once.
Proof.
  exists (still desk), (Some 77), false, [(still desk, act_call op_close)].
  reflexivity.
Qed.

(** C1 (as stated) fails for [close]: after [Instance(hwnd=77)] and one
    [close()], the handle is [None], yet a second [close()] returns
    normally instead of raising [NoOpenedProcess]. *)
Lemma close_after_close_does_not_raise :
  reachable closed_once
  /\ _hwnd (self closed_once) = None
  /\ acts_on_window op_close = true
  /\ exec op_close (still desk) closed_once = (Returned VNone, closed_once)
  /\ exec op_close (still desk) closed_once <> (Raised NoOpenedProcess, closed_once).
Proof.
  split; [exact closed_once_reachable |].
  repeat split; discriminate.
Qed.

(** ** [open] refuses before it starts anything *)

Lemma open_when_attached orc s exe_path app_title delay :
  truthy (_hwnd (self s)) = true ->
  open exe_path app_title delay orc s = (Raised ProcessAlreadyOpened, s).
Proof.
  intros Hh. unfold open, get_self. cbn. rewrite Hh. reflexivity.
Qed.

Lemma open_when_missing (orc : Oracle) s exe_path app_title delay :
  truthy (_hwnd (self s)) = false ->
  orc (log s) (os_path_exists exe_path) = Returned false ->
  open exe_path app_title delay orc s
  = (Raised InvalidPath,
     {| self := self s; log := log s ++ [os_path_exists exe_path ~> false] |}).
Proof.
  intros Hh He. unfold open, get_self, call. cbn. rewrite Hh. cbn.
  rewrite He. reflexivity.
Qed.

(** C6.  [open] on an instance that already has a window handle raises
    [ProcessAlreadyOpened]; otherwise [open] with a path that
    [os.path.exists] denies raises [InvalidPath].  Either way no
    [subprocess.Popen] call is made and the attributes are unchanged, so
    the single [__process] slot is never overwritten while a window is
    attached. *)
Theorem open_refuses_before_starting (orc : Oracle) s exe_path app_title delay :
  truthy (_hwnd (self s)) = true
  \/ orc (log s) (os_path_exists exe_path) = Returned false ->
  exists s',
    open exe_path app_title delay orc s
    = (Raised (if truthy (_hwnd (self s)) then ProcessAlreadyOpened else InvalidPath), s')
    /\ self s' = self s
    /\ count is_Popen (emitted (open exe_path app_title delay) orc s) = 0%nat.
Proof.
  intros H. destruct (truthy (_hwnd (self s))) eqn:Eh.
  - exists s. rewrite (open_when_attached _ _ _ _ _ Eh).
    split; [reflexivity |]. split; [reflexivity |].
    rewrite emitted_nil; [reflexivity |].
    rewrite (open_when_attached _ _ _ _ _ Eh). reflexivity.
  - destruct H as [H | H]; [discriminate |].
    eexists. rewrite (open_when_missing _ _ _ _ _ Eh H).
    split; [reflexivity |]. split; [reflexivity |].
    erewrite emitted_app;
      [| rewrite (open_when_missing _ _ _ _ _ Eh H); reflexivity ].
    reflexivity.
Qed.

Lemma open_refuses_before_starting_witness :
  (exists s',
     open "app.exe" "App" 2%float (still desk) attached = (Raised ProcessAlreadyOpened, s')
     /\ self s' = self attached
     /\ count is_Popen (emitted (open "app.exe" "App" 2%float) (still desk) attached) = 0%nat)
  /\
  (exists s',
     open "gone.exe" "App" 2%float (still no_such_file) detached = (Raised InvalidPath, s')
     /\ self s' = self detached
     /\ count is_Popen (emitted (open "gone.exe" "App" 2%float) (still no_such_file) detached) = 0%nat).
Proof.
  split.
  - exact (open_refuses_before_starting (still desk) attached "app.exe" "App" 2%float
             (or_introl eq_refl)).
  - exact (open_refuses_before_starting (still no_such_file) detached "gone.exe" "App"
             2%float (or_intror eq_refl)).
Defined.

(** ** [get_window_position] *)

(** C10.  With a window attached and [GetWindowRect] answering
    [(left, top, right, bottom)], [get_window_position] returns [(x, y)]
    where [x] is [left] when [left >= 0] and [0] otherwise, and likewise
    [y] for [top]; both are non-negative, and the pair differs from
    [(left, top)] as soon as the window reaches past the left or top edge. *)
Theorem get_window_position_clamps (orc : Oracle) s left top right bottom :
  truthy (_hwnd (self s)) = true ->
  orc (log s) (win32gui_GetWindowRect (_hwnd (self s)))
  = Returned (left, top, right, bottom) ->
  exists x y,
    fst (get_window_position orc s) = Returned (x, y)
    /\ x = (if left >=? 0 then left else 0)
    /\ y = (if top >=? 0 then top else 0)
    /\ 0 <= x /\ 0 <= y
    /\ (left < 0 \/ top < 0 -> (x, y) <> (left, top)).
Proof.
  intros Hh Hr. unfold get_window_position.
  cbn -[require_hwnd]. rewrite (require_hwnd_passes _ _ Hh). cbn.
  rewrite Hr. cbn.
  do 2 eexists. split; [reflexivity |].
  split; [reflexivity |]. split; [reflexivity |].
  destruct (Z.geb_spec left 0), (Z.geb_spec top 0);
    repeat split; try lia; intros Hneg E; inversion E; lia.
Qed.

Lemma get_window_position_clamps_witness :
  exists x y,
    fst (get_window_position (still desk) attached) = Returned (x, y)
    /\ x = 0 /\ y = 20 /\ 0 <= x /\ 0 <= y
    /\ (-8 < 0 \/ 20 < 0 -> (x, y) <> (-8, 20)).
Proof.
  exact (get_window_position_clamps (still desk) attached (-8) 20 632 500
           eq_refl eq_refl).
Defined.

(** ** The lifecycle: [open], [close] and the kill flag *)

Lemma close_when_killed orc s :
  __kill (self s) = true -> close orc s = (Returned tt, s).
Proof.
  intros H. open_state s. subst. reflexivity.
Qed.

(** A [close] that returns has the kill flag set; if the flag was clear when
    it started, it has cleared the handle and the subprocess reference. *)
Lemma close_returned orc s s' :
  close orc s = (Returned tt, s') ->
  __kill (self s') = true
  /\ (__kill (self s) = false ->
      _hwnd (self s') = None /\ __process (self s') = None).
Proof.
  open_state s. destruct kill; cbn.
  - intros [= <-]. cbn. split; [reflexivity | discriminate].
  - destruct (truthy hwnd); cbn; [| discriminate].
    destruct dbg; cbn; destruct proc; cbn;
      repeat ask orc; try discriminate; intros [= <-]; cbn; auto.
Qed.

Lemma keeps_set_process (P : Instance -> Prop) p :
  (forall i, P i ->
     P {| _hwnd := _hwnd i; __process := p; __kill := __kill i; _debug := _debug i |}) ->
  keeps P (set_process p).
Proof. intros H orc s Hs. cbn. apply H, Hs. Qed.

Lemma keeps_set_hwnd (P : Instance -> Prop) h :
  (forall i, P i ->
     P {| _hwnd := h; __process := __process i; __kill := __kill i; _debug := _debug i |}) ->
  keeps P (set_hwnd h).
Proof. intros H orc s Hs. cbn. apply H, Hs. Qed.

(** Nothing ever clears the kill flag. *)
Lemma killed_open exe_path app_title delay :
  keeps killed (open exe_path app_title delay).
Proof.
  unfold open.
  repeat match goal with
    | |- keeps _ (set_process _) => apply keeps_set_process; intros i Hi; exact Hi
    | |- keeps _ (set_hwnd _) => apply keeps_set_hwnd; intros i Hi; exact Hi
    | _ => progress keeps_walk
    end.
Qed.

Lemma killed_close : keeps killed close.
Proof.
  intros orc s H. rewrite (close_when_killed _ _ H). exact H.
Qed.

Lemma snd_then_ret {A B} (m : M A) (b : B) orc s :
  snd ((m ;; ret b) orc s) = snd (m orc s).
Proof.
  cbn. destruct (m orc s) as [[a | e] s1]; reflexivity.
Qed.

Lemma killed_close_handler fuel : keeps killed (_close_handler fuel).
Proof.
  unfold _close_handler.
  repeat match goal with
    | |- keeps _ close => apply killed_close
    | _ => progress keeps_walk
    end.
Qed.

Lemma killed_perform a : keeps killed (perform a).
Proof.
  intros orc s H. destruct a as [o | fuel]; unfold perform; rewrite snd_then_ret.
  - destruct (acts_on_window o) eqn:Ea; [destruct (is_close o) eqn:Ec |].
    + destruct o; try discriminate. cbn [exec]. rewrite snd_then_ret.
      apply killed_close, H.
    + apply keeps_exec; assumption.
    + destruct o; try discriminate. cbn [exec]. rewrite snd_then_ret.
      apply killed_open, H.
  - apply killed_close_handler, H.
Qed.

Lemma killed_run_script script s :
  killed (self s) -> killed (self (run_script script s)).
Proof.
  revert s. induction script as [| [orc a] rest IH]; intros s H; cbn [run_script].
  - exact H.
  - apply IH, killed_perform, H.
Qed.

(** C8.  Once a call of [close] has returned, the kill flag is set (and,
    if this was the call that set it, no window handle is attached any
    more); from then on, whatever else has happened to the instance in
    between, every call of [close] returns [None] at once: it raises
    nothing, makes no call and changes no attribute. *)
Theorem close_is_idempotent orc s s' :
  close orc s = (Returned tt, s') ->
  (__kill (self s) = false -> _hwnd (self s') = None)
  /\ forall script orc',
       close orc' (run_script script s') = (Returned tt, run_script script s').
Proof.
  intros H. destruct (close_returned _ _ _ H) as [Hk Hn]. split.
  - intros Hf. apply Hn, Hf.
  - intros script orc'. apply close_when_killed.
    apply killed_run_script, Hk.
Qed.

Lemma close_is_idempotent_witness :
  _hwnd (self closed_once) = None
  /\ close (still desk) closed_once = (Returned tt, closed_once)
  /\ close (still no_such_window)
       (run_script [(still desk, act_call (op_left_click 3 4))] closed_once)
     = (Returned tt, run_script [(still desk, act_call (op_left_click 3 4))] closed_once).
Proof.
  destruct (close_is_idempotent (still desk) attached closed_once eq_refl) as [Hn Hc].
  split; [exact (Hn eq_refl) |].
  split; [exact (Hc [] (still desk)) |].
  exact (Hc [(still desk, act_call (op_left_click 3 4))] (still no_such_window)).
Defined.

(** [close] keeps the lifecycle invariant, wherever it stops. *)
Lemma close_keeps_invariant : keeps process_needs_hwnd close.
Proof.
  intros orc s. unfold process_needs_hwnd. open_state s.
  destruct kill; cbn; [auto |].
  destruct (truthy hwnd) eqn:Eh; cbn; [| auto].
  destruct hwnd as [h |]; [| discriminate].
  destruct dbg; cbn; destruct proc; cbn;
    repeat ask orc; cbn; intros; congruence.
Qed.

(** Brings [skipn (length l) (l ++ evs)] down to [evs]. *)
Ltac cut_log :=
  rewrite <- ?app_assoc; rewrite ?skipn_app, ?skipn_all, ?Nat.sub_diag; cbn.

(** How [open] can end: it returns with a handle attached, or it raises,
    and then either its subprocess had been started or no attribute was
    assigned. *)
Lemma open_cases orc s exe_path app_title delay :
  fst (open exe_path app_title delay orc s) = Returned tt
  /\ truthy (_hwnd (self (snd (open exe_path app_title delay orc s)))) = true
  \/ (exists err, fst (open exe_path app_title delay orc s) = Raised err)
     /\ (existsb starts_process (emitted (open exe_path app_title delay) orc s) = true
         \/ self (snd (open exe_path app_title delay orc s)) = self s).
Proof.
  unfold emitted, open. open_state s.
  destruct (truthy hwnd) eqn:Eh; cbn; [right; eauto |].
  destruct dbg;
    repeat (cbn;
            first [ ask orc
                  | match goal with
                    | |- context [match ?l with [] => _ | _ :: _ => _ end] =>
                        is_var l; destruct l
                    | |- context [if negb ?b then _ else _] => destruct b eqn:?
                    end ]);
    cbn;
    first [ left; split;
            [ match goal with |- Returned ?a = _ => destruct a end; reflexivity
            | assumption ]
          | right; split; [eexists; reflexivity |];
            first [ right; reflexivity | left; cut_log; reflexivity ] ].
Qed.

(** [open] keeps the lifecycle invariant unless it fails late. *)
Lemma open_keeps_invariant orc s exe_path app_title delay :
  ~ open_failed_late (act_call (op_open exe_path app_title delay)) orc s ->
  process_needs_hwnd (self s) ->
  process_needs_hwnd (self (snd (open exe_path app_title delay orc s))).
Proof.
  intros Hlate Hinv.
  destruct (open_cases orc s exe_path app_title delay)
    as [[_ Hh] | [Herr [Hp | Hs]]].
  - intros _ Hn. rewrite Hn in Hh. discriminate.
  - exfalso. apply Hlate. split; assumption.
  - rewrite Hs. exact Hinv.
Qed.

Lemma close_handler_keeps_invariant fuel :
  keeps process_needs_hwnd (_close_handler fuel).
Proof.
  unfold _close_handler.
  repeat match goal with
    | |- keeps _ close => apply close_keeps_invariant
    | _ => progress keeps_walk
    end.
Qed.

Lemma tidy_invariant s : tidy s -> process_needs_hwnd (self s).
Proof.
  induction 1 as [orc hwnd debug | orc a s Ht IH Hlate].
  - intros Hp. exfalso. apply Hp.
    unfold __init__. cbn. destruct (truthy hwnd); reflexivity.
  - destruct a as [o | fuel]; unfold perform; rewrite snd_then_ret.
    + destruct (acts_on_window o) eqn:Ea; [destruct (is_close o) eqn:Ec |].
      * destruct o; try discriminate. cbn [exec]. rewrite snd_then_ret.
        apply close_keeps_invariant, IH.
      * apply keeps_exec; assumption.
      * destruct o; try discriminate. cbn [exec]. rewrite snd_then_ret.
        apply open_keeps_invariant; assumption.
    + apply close_handler_keeps_invariant, IH.
Qed.

Lemma opened_tidy : tidy opened.
Proof.
  unfold opened. cbn [run_script]. apply tidy_step; [apply tidy_init |].
  intros [[err H] _]. discriminate H.
Qed.

(** C3 (as amended).  In every state reached by a history in which no
    [open] raised after its subprocess had been started, the instance holds
    a subprocess reference only if it holds a window handle; and a [close]
    from such a state that finds the kill flag clear and returns leaves
    both the handle and the subprocess reference [None]. *)
Theorem process_only_with_handle s :
  tidy s ->
  (__process (self s) <> None -> _hwnd (self s) <> None)
  /\ forall orc s',
       __kill (self s) = false ->
       close orc s = (Returned tt, s') ->
       _hwnd (self s') = None /\ __process (self s') = None.
Proof.
  intros Ht. split.
  - apply tidy_invariant, Ht.
  - intros orc s' Hk Hc. apply (close_returned _ _ _ Hc), Hk.
Qed.

Lemma process_only_with_handle_witness :
  __process (self opened) = Some {| pid := 4242 |}
  /\ _hwnd (self opened) <> None
  /\ _hwnd (self (snd (close (still desk) opened))) = None
  /\ __process (self (snd (close (still desk) opened))) = None.
Proof.
  destruct (process_only_with_handle opened opened_tidy) as [Hinv Hclose].
  split; [reflexivity |].
  split; [apply Hinv; discriminate |].
  exact (Hclose (still desk) (snd (close (still desk) opened)) eq_refl eq_refl).
Defined.

Lemma orphaned_reachable : reachable orphaned.
Proof.
  exists (still desk), None, false,
    [(still no_such_window, act_call (op_open "app.exe" "App" 2%float))].
  reflexivity.
Qed.

Lemma reopened_reachable : reachable reopened.
Proof.
  exists (still desk), (Some 77), false,
    [(still desk, act_call op_close);
     (still desk, act_call (op_open "app.exe" "App" 2%float))].
  reflexivity.
Qed.

(** C3 (as stated) fails twice.  After [Instance()] and an
    [open("app.exe", "App")] that finds no window, [open] has raised
    [NoHwnd] and the instance holds the subprocess it started but no
    handle.  And after [Instance(hwnd=77)], [close()] and a successful
    [open], a further [close()] returns normally with the handle and the
    subprocess reference still in place. *)
Lemma process_without_handle :
  (reachable orphaned
   /\ fst (open "app.exe" "App" 2%float (still no_such_window) detached) = Raised NoHwnd
   /\ __process (self orphaned) = Some {| pid := 4242 |}
   /\ _hwnd (self orphaned) = None)
  /\
  (reachable reopened
   /\ close (still desk) reopened = (Returned tt, reopened)
   /\ _hwnd (self reopened) = Some 77
   /\ __process (self reopened) = Some {| pid := 4242 |}).
Proof.
  split.
  - split; [exact orphaned_reachable |]. repeat split.
  - split; [exact reopened_reachable |]. repeat split.
Qed.

(** ** The polling thread *)

Lemma count_app p l1 l2 : count p (l1 ++ l2) = (count p l1 + count p l2)%nat.
Proof.
  unfold count. rewrite filter_app, length_app. reflexivity.
Qed.

Lemma debug_returns orc s title content :
  never_raises orc ->
  exists evs,
    __debug title content orc s
    = (Returned tt, {| self := self s; log := log s ++ evs |})
    /\ count is_native evs = 0%nat
    /\ count is_IsWindow evs = 0%nat
    /\ messages evs = []
    /\ set_window_pos_calls evs = [].
Proof.
  intros Hnr. unfold __debug. open_state s. destruct dbg; cbn.
  - answered Hnr. eexists. split; [reflexivity |]. repeat split.
  - exists []. rewrite app_nil_r. repeat split.
Qed.

Lemma bind_returned {A B} (m : M A) (k : A -> M B) orc s a s1 :
  m orc s = (Returned a, s1) -> bind m k orc s = k a orc s1.
Proof. intros H. cbn. rewrite H. reflexivity. Qed.

(** With the window gone after [n] polls, the loop is left as soon as the
    fuel reaches that poll; the loop assigns no attribute. *)
Lemma poll_leaves_loop orc n :
  never_raises orc -> gone_after n orc ->
  forall fuel s,
    (0 < fuel)%nat ->
    (n < fuel + count is_IsWindow (log s))%nat ->
    exists evs,
      poll fuel orc s = (Returned true, {| self := self s; log := log s ++ evs |}).
Proof.
  intros Hnr Hgone. induction fuel as [| fuel IH]; intros s Hpos Hn; [lia |].
  cbn [poll]. unfold get_self. cbn.
  destruct (__kill (self s)); cbn.
  - exists []. rewrite app_nil_r. destruct s; reflexivity.
  - destruct (Hnr (log s) (win32gui_IsWindow (_hwnd (self s)))) as [w Ew].
    rewrite Ew. destruct w; cbn.
    + destruct (Hnr (log s ++ [win32gui_IsWindow (_hwnd (self s)) ~> true])
                  (time_sleep 1%float)) as [u Eu].
      rewrite Eu.
      assert (Hlt : (count is_IsWindow (log s) < n)%nat).
      { destruct (Nat.lt_ge_cases (count is_IsWindow (log s)) n) as [Hl | Hg];
          [exact Hl |].
        rewrite (Hgone _ _ Hg) in Ew. discriminate. }
      destruct (IH {| self := self s;
                      log := (log s ++ [win32gui_IsWindow (_hwnd (self s)) ~> true])
                               ++ [time_sleep 1%float ~> u] |})
        as [evs Hevs].
      * lia.
      * cbn [log]. rewrite !count_app. cbn. lia.
      * rewrite Hevs. cbn. eexists. rewrite <- !app_assoc. reflexivity.
    + eexists. reflexivity.
Qed.

(** [close] goes through when nothing raises, the kill flag is clear and a
    window is attached. *)
Lemma close_runs orc s :
  never_raises orc ->
  __kill (self s) = false ->
  truthy (_hwnd (self s)) = true ->
  exists s', close orc s = (Returned tt, s').
Proof.
  intros Hnr Hk Hh. open_state s. subst kill. cbn. rewrite Hh. cbn.
  destruct dbg; cbn; destruct proc; cbn; repeat answered Hnr;
    eexists; reflexivity.
Qed.

(** The design on its good path: while the kill flag is clear, the thread
    leaves its loop at the first poll that finds the window gone and
    closes the instance. *)
Lemma close_handler_detects_closure orc n fuel s :
  never_raises orc -> gone_after n orc ->
  __kill (self s) = false ->
  truthy (_hwnd (self s)) = true ->
  (0 < fuel)%nat ->
  (n < fuel + count is_IsWindow (log s))%nat ->
  exists s',
    _close_handler fuel orc s = (Returned true, s')
    /\ __kill (self s') = true
    /\ _hwnd (self s') = None
    /\ __process (self s') = None.
Proof.
  intros Hnr Hgone Hk Hh Hpos Hn. unfold _close_handler.
  destruct (debug_returns orc s "Info" "Created close handler." Hnr)
    as [ev1 [E1 [_ [Hw1 _]]]].
  rewrite (bind_returned _ _ _ _ _ _ E1).
  destruct (poll_leaves_loop orc n Hnr Hgone fuel
              {| self := self s; log := log s ++ ev1 |}) as [ev2 E2];
    [exact Hpos | cbn [log]; rewrite count_app, Hw1; lia |].
  rewrite (bind_returned _ _ _ _ _ _ E2). cbn [self log].
  destruct (debug_returns orc {| self := self s; log := (log s ++ ev1) ++ ev2 |}
              "Info" "Detected application close in close handler." Hnr)
    as [ev3 [E3 _]].
  rewrite (bind_returned _ _ _ _ _ _ E3). cbn [self log].
  destruct (close_runs orc {| self := self s; log := ((log s ++ ev1) ++ ev2) ++ ev3 |}
              Hnr Hk Hh) as [s' E4].
  rewrite (bind_returned _ _ _ _ _ _ E4).
  exists s'. split; [reflexivity |].
  destruct (close_returned _ _ _ E4) as [Hk' Hn'].
  split; [exact Hk' |]. apply Hn'. exact Hk.
Qed.

Lemma dies_after_never_raises n w : never_raises (dies_after n w).
Proof.
  intros l c. unfold dies_after. destruct c; eexists; reflexivity.
Qed.

Lemma dies_after_gone n w : gone_after n (dies_after n w).
Proof.
  intros l h Hn. unfold dies_after. f_equal. apply Nat.ltb_ge. exact Hn.
Qed.

(** On a freshly opened instance the thread works: the window of [opened]
    dies after three polls and the thread closes the instance. *)
Example close_handler_after_first_open :
  exists s',
    _close_handler 10 (dies_after 3 desk) opened = (Returned true, s')
    /\ __kill (self s') = true
    /\ _hwnd (self s') = None
    /\ __process (self s') = None.
Proof.
  apply (close_handler_detects_closure (dies_after 3 desk) 3 10 opened).
  - apply dies_after_never_raises.
  - apply dies_after_gone.
  - reflexivity.
  - reflexivity.
  - lia.
  - cbn. lia.
Qed.

(** Once the kill flag is set the thread body never polls: it leaves the
    loop at the first test, and its [close] returns at once. *)
Lemma close_handler_when_killed orc fuel s :
  never_raises orc ->
  __kill (self s) = true ->
  exists evs,
    _close_handler (S fuel) orc s
    = (Returned true, {| self := self s; log := log s ++ evs |})
    /\ count is_IsWindow evs = 0%nat
    /\ count is_native evs = 0%nat.
Proof.
  intros Hnr Hk. unfold _close_handler.
  destruct (debug_returns orc s "Info" "Created close handler." Hnr)
    as [ev1 [E1 [Hn1 [Hw1 _]]]].
  rewrite (bind_returned _ _ _ _ _ _ E1).
  assert (E2 : poll (S fuel) orc {| self := self s; log := log s ++ ev1 |}
               = (Returned true, {| self := self s; log := log s ++ ev1 |})).
  { cbn. rewrite Hk. reflexivity. }
  rewrite (bind_returned _ _ _ _ _ _ E2).
  destruct (debug_returns orc {| self := self s; log := log s ++ ev1 |}
              "Info" "Detected application close in close handler." Hnr)
    as [ev3 [E3 [Hn3 [Hw3 _]]]].
  rewrite (bind_returned _ _ _ _ _ _ E3). cbn [self log].
  rewrite (bind_returned _ _ _ _ _ _
             (close_when_killed orc {| self := self s; log := (log s ++ ev1) ++ ev3 |} Hk)).
  exists (ev1 ++ ev3). rewrite app_assoc. split; [reflexivity |].
  rewrite !count_app, Hn1, Hw1, Hn3, Hw3. split; reflexivity.
Qed.

(** C4 (the defect).  [Instance(hwnd=77)], [close()], then a successful
    [open("app.exe", "App")]: the instance has window 77 and a subprocess
    again, but the kill flag set by [close] was never cleared.  The thread
    that this [open] starts, run in a world where the window is already
    gone, leaves its loop without a single [IsWindow] poll, and the [close]
    it then calls returns at once: handle, subprocess reference and log of
    native calls are as before, so the closure goes unnoticed. *)
Theorem close_handler_dead_after_reopen :
  __kill (self reopened) = true
  /\ _hwnd (self reopened) = Some 77
  /\ fst (_close_handler 1000 (dies_after 0 desk) reopened) = Returned true
  /\ self (snd (_close_handler 1000 (dies_after 0 desk) reopened)) = self reopened
  /\ count is_IsWindow (emitted (_close_handler 1000) (dies_after 0 desk) reopened) = 0%nat
  /\ count is_native (emitted (_close_handler 1000) (dies_after 0 desk) reopened) = 0%nat.
Proof.
  destruct (close_handler_when_killed (dies_after 0 desk) 999 reopened
              (dies_after_never_raises 0 desk) eq_refl) as [evs [E [Hw Hn]]].
  split; [reflexivity |]. split; [reflexivity |].
  rewrite (emitted_app _ _ _ evs); [| rewrite E; reflexivity].
  rewrite E. repeat split; assumption.
Qed.

(** ** Messages and window placement *)

Ltac pass_guard Hh :=
  rewrite (bind_returned _ _ _ _ _ _ (require_hwnd_passes _ _ Hh)).

Ltac pass_debug Hnr :=
  match goal with
  | |- context [bind (__debug ?t ?c) _ ?orc ?s] =>
      let ev := fresh "ev" in
      let E := fresh "E" in
      let Hc := fresh "Hc" in
      destruct (debug_returns orc s t c Hnr) as [ev [E Hc]];
      rewrite (bind_returned _ _ _ _ _ _ E)
  end.

Lemma messages_app l1 l2 : messages (l1 ++ l2) = messages l1 ++ messages l2.
Proof. unfold messages. apply flat_map_app. Qed.

(** What [press_key] sends, for every key. *)
Lemma press_key_runs (orc : Oracle) s key :
  truthy (_hwnd (self s)) = true ->
  never_raises orc ->
  exists evs,
    press_key key orc s = (Returned tt, {| self := self s; log := log s ++ evs |})
    /\ messages evs =
       match key with
       | KeyInt k =>
           if truthy_int k
           then [(win32con.WM_KEYUP, k); (win32con.WM_KEYUP, k)]
           else []
       | KeyStr str =>
           if (String.length str =? 1)%nat
           then match str with
                | String c _ => [(win32con.WM_CHAR, ord c)]
                | EmptyString => []
                end
           else match dict_get special_keys (lower str) with
                | Some vk => [(win32con.WM_KEYDOWN, vk); (win32con.WM_KEYUP, vk)]
                | None => []
                end
       end.
Proof.
  intros Hh Hnr. unfold press_key. pass_guard Hh. pass_debug Hnr.
  destruct Hc as [_ [_ [Hm _]]]. unfold get_self. cbn -[dict_get].
  destruct key as [k | str].
  - destruct (truthy_int k); cbn.
    + repeat answered Hnr. rewrite <- !app_assoc. eexists.
      split; [reflexivity |]. rewrite messages_app, Hm. reflexivity.
    + exists ev. split; [reflexivity | exact Hm].
  - destruct (String.length str =? 1)%nat; [destruct str as [| c rest] |];
      cbn -[dict_get].
    + exists ev. split; [reflexivity | exact Hm].
    + repeat answered Hnr. rewrite <- !app_assoc. eexists.
      split; [reflexivity |]. rewrite messages_app, Hm. reflexivity.
    + destruct (dict_get special_keys (lower str)) as [vk |]; cbn -[dict_get].
      * repeat answered Hnr. rewrite <- !app_assoc. eexists.
        split; [reflexivity |]. rewrite messages_app, Hm. reflexivity.
      * exists ev. split; [reflexivity | exact Hm].
Qed.

(** C9.  With a window attached and no call raising, [press_key] raises
    nothing.  For a nonzero integer key the messages it sends are exactly
    two [WM_KEYUP] messages carrying the key, so no [WM_KEYDOWN].  For the
    integer [0], and for a string whose length is not one and whose
    lowercase form is neither "enter" nor "tab", it sends no message. *)
Theorem press_key_sends (orc : Oracle) s key :
  truthy (_hwnd (self s)) = true ->
  never_raises orc ->
  fst (press_key key orc s) = Returned tt
  /\ (forall k, key = KeyInt k -> k <> 0 ->
        messages (emitted (press_key key) orc s)
        = [(win32con.WM_KEYUP, k); (win32con.WM_KEYUP, k)])
  /\ (key = KeyInt 0
      \/ (exists str, key = KeyStr str /\ String.length str <> 1%nat
                      /\ lower str <> "enter" /\ lower str <> "tab") ->
      messages (emitted (press_key key) orc s) = []).
Proof.
  intros Hh Hnr.
  destruct (press_key_runs orc s key Hh Hnr) as [evs [E Hm]].
  rewrite (emitted_app _ _ _ evs); [| rewrite E; reflexivity].
  rewrite E. split; [reflexivity |]. split.
  - intros k -> Hk. rewrite Hm. unfold truthy_int.
    destruct (Z.eqb_spec k 0); [contradiction | reflexivity].
  - intros [-> | [str [-> [Hlen [He Ht]]]]]; rewrite Hm; [reflexivity |].
    destruct (Nat.eqb_spec (String.length str) 1); [contradiction |].
    apply String.eqb_neq in He, Ht.
    rewrite String.eqb_sym in He. rewrite String.eqb_sym in Ht.
    unfold special_keys, dict_get. rewrite He, Ht. reflexivity.
Qed.

Lemma press_key_sends_witness :
  fst (press_key (KeyInt 65) (still desk) attached) = Returned tt
  /\ messages (emitted (press_key (KeyInt 65)) (still desk) attached)
     = [(win32con.WM_KEYUP, 65); (win32con.WM_KEYUP, 65)]
  /\ messages (emitted (press_key (KeyInt 0)) (still desk) attached) = []
  /\ messages (emitted (press_key (KeyStr "Escape")) (still desk) attached) = [].
Proof.
  destruct (press_key_sends (still desk) attached (KeyInt 65) eq_refl
              (still_never_raises desk)) as [Hr [Hk _]].
  destruct (press_key_sends (still desk) attached (KeyInt 0) eq_refl
              (still_never_raises desk)) as [_ [_ H0]].
  destruct (press_key_sends (still desk) attached (KeyStr "Escape") eq_refl
              (still_never_raises desk)) as [_ [_ Hs]].
  split; [exact Hr |].
  split; [apply (Hk 65 eq_refl); discriminate |].
  split; [apply H0; left; reflexivity |].
  apply Hs. right. exists "Escape".
  split; [reflexivity |]. split; [discriminate |]. split; discriminate.
Defined.

Lemma set_window_pos_calls_app l1 l2 :
  set_window_pos_calls (l1 ++ l2) = set_window_pos_calls l1 ++ set_window_pos_calls l2.
Proof.
  unfold set_window_pos_calls. rewrite map_app, filter_app. reflexivity.
Qed.

(** Only the [SetWindowPos] calls of a log move the window. *)
Lemma placed_by_set_window_pos effect l w :
  placed effect l w
  = fold_left (fun w c =>
                 match c with
                 | win32gui_SetWindowPos _ a x y cx cy f => effect a x y cx cy f w
                 | _ => w
                 end)
              (set_window_pos_calls l) w.
Proof.
  unfold placed, set_window_pos_calls. revert w.
  induction (map ev_call l) as [| c cs IH]; intros w; [reflexivity |].
  destruct c; cbn; apply IH.
Qed.

Lemma set_window_position_runs (orc : Oracle) s x y :
  truthy (_hwnd (self s)) = true ->
  never_raises orc ->
  exists evs,
    set_window_position x y orc s
    = (Returned tt, {| self := self s; log := log s ++ evs |})
    /\ set_window_pos_calls evs
       = [win32gui_SetWindowPos (_hwnd (self s)) win32con.HWND_TOP x y 0 0
            win32con.SWP_NOSIZE].
Proof.
  intros Hh Hnr. unfold set_window_position. pass_guard Hh. pass_debug Hnr.
  destruct Hc as [_ [_ [_ Hp]]]. unfold get_self, call. cbn.
  answered Hnr. destruct v. rewrite <- !app_assoc. eexists.
  split; [reflexivity |]. rewrite set_window_pos_calls_app, Hp. reflexivity.
Qed.

Lemma set_window_dimensions_runs (orc : Oracle) s width height :
  truthy (_hwnd (self s)) = true ->
  never_raises orc ->
  exists evs px py,
    set_window_dimensions width height orc s
    = (Returned tt, {| self := self s; log := log s ++ evs |})
    /\ set_window_pos_calls evs
       = [win32gui_SetWindowPos (_hwnd (self s)) 0 px py width height
            (Z.lor win32con.SWP_NOMOVE win32con.SWP_NOZORDER)].
Proof.
  intros Hh Hnr. unfold set_window_dimensions. pass_guard Hh. pass_debug Hnr.
  destruct Hc as [_ [_ [_ Hp]]].
  unfold get_window_position, require_hwnd, get_self, call. cbn. rewrite Hh. cbn.
  answered Hnr. destruct v as [[[r0 r1] r2] r3]. cbn.
  answered Hnr. destruct v. rewrite <- !app_assoc. do 3 eexists.
  split; [reflexivity |]. rewrite set_window_pos_calls_app, Hp. reflexivity.
Qed.

(** C7 (as amended).  With a window attached, no call raising, and a
    window manager that honours the flags of [SetWindowPos]:
    [set_window_position] makes a single [SetWindowPos] call, with the
    flag [SWP_NOSIZE] alone and [HWND_TOP] as the window to insert after;
    it puts the window at [(x, y)], leaves its size as it was and, the
    no-z-order flag being absent, places it at the top of the z-order.
    [set_window_dimensions] makes a single [SetWindowPos] call, with the
    flags [SWP_NOMOVE | SWP_NOZORDER], which gives the window the size
    [(width, height)] and leaves its position and its z-order as they
    were. *)
Theorem set_window_pos_frames (orc : Oracle) s effect w x y width height :
  truthy (_hwnd (self s)) = true ->
  never_raises orc ->
  obeys_flags effect ->
  (fst (set_window_position x y orc s) = Returned tt
   /\ set_window_pos_calls (emitted (set_window_position x y) orc s)
      = [win32gui_SetWindowPos (_hwnd (self s)) win32con.HWND_TOP x y 0 0
           win32con.SWP_NOSIZE]
   /\ position (placed effect (emitted (set_window_position x y) orc s) w) = (x, y)
   /\ dimensions (placed effect (emitted (set_window_position x y) orc s) w)
      = dimensions w
   /\ behind (placed effect (emitted (set_window_position x y) orc s) w)
      = win32con.HWND_TOP)
  /\
  (fst (set_window_dimensions width height orc s) = Returned tt
   /\ (exists px py,
         set_window_pos_calls (emitted (set_window_dimensions width height) orc s)
         = [win32gui_SetWindowPos (_hwnd (self s)) 0 px py width height
              (Z.lor win32con.SWP_NOMOVE win32con.SWP_NOZORDER)])
   /\ dimensions (placed effect (emitted (set_window_dimensions width height) orc s) w)
      = (width, height)
   /\ position (placed effect (emitted (set_window_dimensions width height) orc s) w)
      = position w
   /\ behind (placed effect (emitted (set_window_dimensions width height) orc s) w)
      = behind w).
Proof.
  intros Hh Hnr [Hns Hst Hnm Hmt Hnz Hzt]. split.
  - destruct (set_window_position_runs orc s x y Hh Hnr) as [evs [E Hp]].
    rewrite (emitted_app _ _ _ evs); [| rewrite E; reflexivity].
    rewrite E, placed_by_set_window_pos, Hp. cbn [fst fold_left].
    split; [reflexivity |]. split; [reflexivity |]. split; [| split].
    + apply Hmt. reflexivity.
    + apply Hns. discriminate.
    + apply Hzt. reflexivity.
  - destruct (set_window_dimensions_runs orc s width height Hh Hnr)
      as [evs [px [py [E Hp]]]].
    rewrite (emitted_app _ _ _ evs); [| rewrite E; reflexivity].
    rewrite E, placed_by_set_window_pos, Hp. cbn [fst fold_left].
    split; [reflexivity |]. split; [exists px, py; reflexivity |].
    split; [| split].
    + apply Hst. reflexivity.
    + apply Hnm. discriminate.
    + apply Hnz. discriminate.
Qed.

Lemma by_the_book_obeys_flags : obeys_flags by_the_book.
Proof.
  split; intros a x y cx cy f w H; cbn;
    [ destruct (Z.eqb_spec (Z.land f win32con.SWP_NOSIZE) 0)
    | destruct (Z.eqb_spec (Z.land f win32con.SWP_NOSIZE) 0)
    | destruct (Z.eqb_spec (Z.land f win32con.SWP_NOMOVE) 0)
    | destruct (Z.eqb_spec (Z.land f win32con.SWP_NOMOVE) 0)
    | destruct (Z.eqb_spec (Z.land f win32con.SWP_NOZORDER) 0)
    | destruct (Z.eqb_spec (Z.land f win32con.SWP_NOZORDER) 0) ];
    congruence.
Qed.

Lemma set_window_pos_frames_witness :
  (position (placed by_the_book
               (emitted (set_window_position 10 30) (still desk) attached) somewhere)
   = (10, 30)
   /\ dimensions (placed by_the_book
                    (emitted (set_window_position 10 30) (still desk) attached) somewhere)
      = (640, 480)
   /\ behind (placed by_the_book
                (emitted (set_window_position 10 30) (still desk) attached) somewhere)
      = 0)
  /\
  (dimensions (placed by_the_book
                 (emitted (set_window_dimensions 800 600) (still desk) attached) somewhere)
   = (800, 600)
   /\ position (placed by_the_book
                  (emitted (set_window_dimensions 800 600) (still desk) attached) somewhere)
      = (100, 120)
   /\ behind (placed by_the_book
                (emitted (set_window_dimensions 800 600) (still desk) attached) somewhere)
      = 55).
Proof.
  destruct (set_window_pos_frames (still desk) attached by_the_book somewhere
              10 30 800 600 eq_refl (still_never_raises desk) by_the_book_obeys_flags)
    as [[_ [_ [Hp [Hd Hb]]]] [_ [_ [Hd' [Hp' Hb']]]]].
  split; [split; [exact Hp | split; [exact Hd | exact Hb]] |].
  split; [exact Hd' |]. split; [exact Hp' | exact Hb'].
Defined.

(** C7 (as stated) fails for [set_window_position]: it does not change the
    position only.  Under a window manager that does what the flags say, a
    window that sat behind window 55 is, after [set_window_position(10, 30)],
    at the top of the z-order, because the one [SetWindowPos] call carries
    [HWND_TOP] and no [SWP_NOZORDER]. *)
Lemma set_window_position_raises_the_window :
  obeys_flags by_the_book
  /\ set_window_pos_calls (emitted (set_window_position 10 30) (still desk) attached)
     = [win32gui_SetWindowPos (Some 77) win32con.HWND_TOP 10 30 0 0 win32con.SWP_NOSIZE]
  /\ Z.land win32con.SWP_NOSIZE win32con.SWP_NOZORDER = 0
  /\ behind somewhere = 55
  /\ behind (placed by_the_book
               (emitted (set_window_position 10 30) (still desk) attached) somewhere)
     = 0
  /\ behind (placed by_the_book
               (emitted (set_window_position 10 30) (still desk) attached) somewhere)
     <> behind somewhere.
Proof.
  split; [exact by_the_book_obeys_flags |].
  repeat split. discriminate.
Qed.

(** ** Template matching *)

(** Python's [n // 2]: twice the half is [n], or one less when [n] is odd. *)
Lemma floor_half n : 2 * (n / 2) = n - n mod 2.
Proof. pose proof (Z.div_mod n 2). lia. Qed.

(** C2.  With a window attached, no call raising, the path existing and
    [cv2.imread] giving an image of shape [(th, tw, ...)], the calls of
    [find_image_on_screen] are exactly the seventeen listed below, each
    answered by the world in its turn: among them one [cv2.matchTemplate]
    call, on the converted capture of the window and the template read
    from the path, followed by [cv2.minMaxLoc] on its result.  With
    [confidence] and [(mx, my)] the best score and its location answered by
    [minMaxLoc], and [(left, top, ...)] the rectangle answered by
    [GetWindowRect], it returns [None] when [confidence] is strictly below
    [confidence_threshhold], and otherwise the pair
    (mx + left + tw // 2, my + top + th // 2).  The halves are the integer
    halves of the source: twice the half is the width, or one less when the
    width is odd. *)
Theorem find_image_on_screen_result (orc : Oracle) s image_path confidence_threshhold :
  truthy (_hwnd (self s)) = true ->
  never_raises orc ->
  (forall l, orc l (os_path_exists image_path) = Returned true) ->
  (forall l, exists templ th tw rest,
      orc l (cv2_imread image_path) = Returned (Some templ)
      /\ shape templ = th :: tw :: rest) ->
  exists templ th tw rest left top right bottom
         window_dc dc_obj mem_dc screenshot bmHeight bmWidth bits flat
         img_np img_rgb res min_val confidence min_loc mx my evs,
    evs = [os_path_exists image_path ~> true;
           cv2_imread image_path ~> Some templ;
           win32gui_GetWindowRect (_hwnd (self s)) ~> (left, top, right, bottom);
           win32gui_GetWindowDC (_hwnd (self s)) ~> window_dc;
           win32ui_CreateDCFromHandle window_dc ~> dc_obj;
           dc_CreateCompatibleDC dc_obj ~> mem_dc;
           win32ui_CreateBitmap ~> screenshot;
           bitmap_CreateCompatibleBitmap screenshot dc_obj (right - left) (bottom - top) ~> tt;
           dc_SelectObject mem_dc screenshot ~> tt;
           dc_BitBlt mem_dc (0, 0) (right - left, bottom - top) dc_obj (0, 0)
             win32con.SRCCOPY ~> tt;
           bitmap_GetInfo screenshot ~> (bmHeight, bmWidth);
           bitmap_GetBitmapBits screenshot true ~> bits;
           np_frombuffer_uint8 bits ~> flat;
           ndarray_reshape flat bmHeight bmWidth 4 ~> img_np;
           cv2_cvtColor img_np cv2.COLOR_BGR2RGB ~> img_rgb;
           cv2_matchTemplate img_rgb (Some templ) cv2.TM_CCOEFF_NORMED ~> res;
           cv2_minMaxLoc res ~> (min_val, confidence, min_loc, (mx, my))]
    /\ answered_by orc (log s) evs
    /\ shape templ = th :: tw :: rest
    /\ find_image_on_screen image_path confidence_threshhold orc s
       = (Returned (if PrimFloat.ltb confidence confidence_threshhold
                    then None
                    else Some (mx + left + tw / 2, my + top + th / 2)),
          {| self := self s; log := log s ++ evs |})
    /\ count is_matchTemplate evs = 1%nat
    /\ 2 * (tw / 2) = tw - tw mod 2
    /\ 2 * (th / 2) = th - th mod 2.
Proof.
  intros Hh Hnr Hex Himg. unfold find_image_on_screen. pass_guard Hh.
  unfold call, get_self. cbn. rewrite Hex. cbn.
  destruct (Himg (log s ++ [os_path_exists image_path ~> true]))
    as [templ [th [tw [rest [Et Hs]]]]].
  rewrite Et. cbn.
  name_answer Hnr as rect. destruct rect as [[[left top] right] bottom]. cbn.
  name_answer Hnr as window_dc. name_answer Hnr as dc_obj. name_answer Hnr as mem_dc.
  name_answer Hnr as screenshot. name_answer Hnr as u1. name_answer Hnr as u2.
  name_answer Hnr as u3. destruct u1, u2, u3.
  name_answer Hnr as info. destruct info as [bmHeight bmWidth]. cbn.
  name_answer Hnr as bits. name_answer Hnr as flat. name_answer Hnr as img_np.
  name_answer Hnr as img_rgb. name_answer Hnr as res.
  name_answer Hnr as mm. destruct mm as [[[min_val confidence] min_loc] [mx my]]. cbn.
  rewrite Hs. cbn.
  exists templ, th, tw, rest, left, top, right, bottom,
    window_dc, dc_obj, mem_dc, screenshot, bmHeight, bmWidth, bits, flat,
    img_np, img_rgb, res, min_val, confidence, min_loc, mx, my.
  rewrite <- !app_assoc. eexists.
  split; [reflexivity |].
  split; [cbn; repeat split; try assumption; apply Hex |].
  split; [exact Hs |].
  split; [destruct (PrimFloat.ltb confidence confidence_threshhold); reflexivity |].
  split; [reflexivity |].
  split; apply floor_half.
Qed.

Lemma find_image_on_screen_result_witness :
  exists left top tw th confidence mx my,
    fst (find_image_on_screen "button.png" 0.25%float (still desk) attached)
    = Returned (if PrimFloat.ltb confidence 0.25%float
                then None
                else Some (mx + left + tw / 2, my + top + th / 2))
    /\ still desk (log attached ++ [os_path_exists "button.png" ~> true;
                                    cv2_imread "button.png" ~> Some sample_image])
         (win32gui_GetWindowRect (_hwnd (self attached)))
       = Returned (left, top, 632, 500).
Proof.
  destruct (find_image_on_screen_result (still desk) attached "button.png" 0.25%float
              eq_refl (still_never_raises desk) (fun _ => eq_refl)
              (fun _ => ex_intro _ sample_image
                          (ex_intro _ 5 (ex_intro _ 9 (ex_intro _ [3]
                             (conj eq_refl eq_refl))))))
    as [templ [th [tw [rest [left [top [right [bottom
       [window_dc [dc_obj [mem_dc [screenshot [bmHeight [bmWidth [bits [flat
       [img_np [img_rgb [res [min_val [confidence [min_loc [mx [my [evs
       [Hevs [Hans [Hs [E _]]]]]]]]]]]]]]]]]]]]]]]]]]]]].
  exists (-8), 20, tw, th, confidence, mx, my.
  rewrite E. subst evs. cbn in Hans.
  destruct Hans as [_ [_ [Hrect _]]].
  injection Hrect as <- <- _ _.
  split; reflexivity.
Defined.

(** On the sample desktop: the template is 9 by 5, the window rectangle
    starts at (-8, 20) and the best match is at (30, 40) with score 0.5. *)
Example find_image_on_screen_on_desk :
  fst (find_image_on_screen "button.png" 0.25%float (still desk) attached)
  = Returned (Some (26, 62))
  /\ fst (find_image_on_screen "button.png" 0.75%float (still desk) attached)
     = Returned None
  /\ fst (find_image_on_screen "button.png" 0.5%float (still desk) attached)
     = Returned (Some (26, 62)).
Proof. repeat split. Qed.

(** ** How many native calls an operation makes *)

Lemma costs_weaken {A} (m : M A) n n' :
  (n <= n')%nat -> costs n m -> costs n' m.
Proof.
  intros Hle H orc s. destruct (H orc s) as [evs [E Hc]].
  exists evs. split; [exact E | lia].
Qed.

Lemma costs_ret {A} (a : A) : costs 0 (ret a).
Proof. intros orc s. exists []. rewrite app_nil_r. split; [reflexivity | cbn; lia]. Qed.

Lemma costs_raise {A} (e : exn) : costs 0 (raise e : M A).
Proof. intros orc s. exists []. rewrite app_nil_r. split; [reflexivity | cbn; lia]. Qed.

Lemma costs_get_self : costs 0 get_self.
Proof. intros orc s. exists []. rewrite app_nil_r. split; [reflexivity | cbn; lia]. Qed.

Lemma costs_put_self i : costs 0 (put_self i).
Proof. intros orc s. exists []. rewrite app_nil_r. split; [reflexivity | cbn; lia]. Qed.

Lemma costs_call (c : Call) : costs (if is_native c then 1 else 0) (call c).
Proof.
  intros orc s. eexists. split; [reflexivity |].
  unfold count. cbn. destruct (is_native c); cbn; lia.
Qed.

Lemma costs_bind {A B} (m : M A) (k : A -> M B) n1 n2 :
  costs n1 m -> (forall a, costs n2 (k a)) -> costs (n1 + n2) (bind m k).
Proof.
  intros Hm Hk orc s. cbn. destruct (Hm orc s) as [e1 [E1 H1]].
  destruct (m orc s) as [[a | e] s1]; cbn in *.
  - destruct (Hk a orc s1) as [e2 [E2 H2]].
    exists (e1 ++ e2). rewrite E2, E1, app_assoc, count_app.
    split; [reflexivity | lia].
  - exists e1. split; [exact E1 | lia].
Qed.

Lemma costs_catch {A} (m : M A) (h : exn -> M A) n1 n2 :
  costs n1 m -> (forall e, costs n2 (h e)) -> costs (n1 + n2) (catch m h).
Proof.
  intros Hm Hh orc s. cbn. destruct (Hm orc s) as [e1 [E1 H1]].
  destruct (m orc s) as [[a | e] s1]; cbn in *.
  - exists e1. split; [exact E1 | lia].
  - destruct (Hh e orc s1) as [e2 [E2 H2]].
    exists (e1 ++ e2). rewrite E2, E1, app_assoc, count_app.
    split; [reflexivity | lia].
Qed.

(** A step that costs nothing leaves the whole budget to what follows. *)
Lemma costs_bind_free {A B} (m : M A) (k : A -> M B) n :
  costs 0 m -> (forall a, costs n (k a)) -> costs n (bind m k).
Proof. intros Hm Hk. exact (costs_bind m k 0 n Hm Hk). Qed.

(** A step that costs one call takes one from the budget. *)
Lemma costs_bind_one {A B} (m : M A) (k : A -> M B) n :
  costs 1 m -> (forall a, costs n (k a)) -> costs (S n) (bind m k).
Proof. intros Hm Hk. exact (costs_bind m k 1 n Hm Hk). Qed.

Lemma costs_require_hwnd : costs 0 require_hwnd.
Proof.
  unfold require_hwnd. apply costs_bind_free; [apply costs_get_self |].
  intros i. destruct (negb (truthy (_hwnd i))); [apply costs_raise | apply costs_ret].
Qed.

Lemma costs_debug title content : costs 0 (__debug title content).
Proof.
  unfold __debug. apply costs_bind_free; [apply costs_get_self |].
  intros i. destruct (negb (_debug i)); [apply costs_ret |].
  apply costs_bind_free; [apply (costs_call (print _)) | intros; apply costs_ret].
Qed.

Lemma costs_set_kill b : costs 0 (set_kill b).
Proof.
  unfold set_kill. apply costs_bind_free; [apply costs_get_self |].
  intros i. apply costs_put_self.
Qed.

Lemma costs_set_process p : costs 0 (set_process p).
Proof.
  unfold set_process. apply costs_bind_free; [apply costs_get_self |].
  intros i. apply costs_put_self.
Qed.

Lemma costs_set_hwnd h : costs 0 (set_hwnd h).
Proof.
  unfold set_hwnd. apply costs_bind_free; [apply costs_get_self |].
  intros i. apply costs_put_self.
Qed.

Lemma costs_shape_of a : costs 0 (shape_of a).
Proof. destruct a; [apply costs_ret | apply costs_raise]. Qed.

Lemma costs_tuple_item t k : costs 0 (tuple_item t k).
Proof.
  unfold tuple_item. destruct (nth_error t k); [apply costs_ret | apply costs_raise].
Qed.

(** Steps that never reach the window system or the vision library. *)
Ltac costs_nothing :=
  match goal with
  | |- costs 0 (ret _) => apply costs_ret
  | |- costs 0 (raise _) => apply costs_raise
  | |- costs 0 get_self => apply costs_get_self
  | |- costs 0 (put_self _) => apply costs_put_self
  | |- costs 0 (set_kill _) => apply costs_set_kill
  | |- costs 0 (set_process _) => apply costs_set_process
  | |- costs 0 (set_hwnd _) => apply costs_set_hwnd
  | |- costs 0 (shape_of _) => apply costs_shape_of
  | |- costs 0 (tuple_item _ _) => apply costs_tuple_item
  | |- costs 0 require_hwnd => apply costs_require_hwnd
  | |- costs 0 (__debug _ _) => apply costs_debug
  | |- costs 0 (call (print ?a)) => apply (costs_call (print a))
  | |- costs 0 (call Thread_start_close_handler) =>
      apply (costs_call Thread_start_close_handler)
  | |- costs 0 (call (time_sleep ?a)) => apply (costs_call (time_sleep a))
  | |- costs 0 (call (os_path_exists ?a)) => apply (costs_call (os_path_exists a))
  | |- costs 0 (call (win32api_MAKELONG ?a ?b)) => apply (costs_call (win32api_MAKELONG a b))
  | |- costs 0 (call (np_frombuffer_uint8 ?a)) => apply (costs_call (np_frombuffer_uint8 a))
  | |- costs 0 (call (ndarray_reshape ?a ?b ?c ?d)) =>
      apply (costs_call (ndarray_reshape a b c d))
  end.

(** Spends a budget along a computation. *)
Ltac costs_step :=
  match goal with
  | |- costs _ (if ?b then _ else _) => destruct b
  | |- costs _ (match ?x with _ => _ end) => destruct x
  | |- costs _ (bind ?m _) =>
      first [ apply costs_bind_free; [ costs_nothing | intros ? ]
            | apply costs_bind_one; [ | intros ? ] ]
  | |- costs 0 _ => costs_nothing
  | |- costs (S ?n) (call ?c) =>
      apply (costs_weaken _ 1); [ lia | apply (costs_call c) ]
  | |- costs (S ?n) _ => apply (costs_weaken _ 0); [ lia | costs_nothing ]
  end.

Lemma costs_close : costs 1 close.
Proof.
  unfold close. repeat costs_step.
Qed.

Lemma costs_open exe_path app_title delay : costs 2 (open exe_path app_title delay).
Proof.
  unfold open.
  repeat match goal with
    | |- costs 1 (catch _ _) =>
        apply (costs_catch _ _ 1 0); [| intros; apply costs_raise ]
    | _ => costs_step
    end.
Qed.

Lemma costs_get_window_position : costs 1 get_window_position.
Proof. unfold get_window_position. repeat costs_step. Qed.

Lemma costs_left_click x y : costs 2 (left_click x y).
Proof. unfold left_click. repeat costs_step. Qed.

Lemma costs_right_click x y : costs 2 (right_click x y).
Proof. unfold right_click. repeat costs_step. Qed.

Lemma costs_typewrite_chars text delay :
  costs (String.length text) (typewrite_chars text delay).
Proof.
  induction text as [| c rest IH]; cbn [typewrite_chars String.length].
  - apply costs_ret.
  - do 3 costs_step. exact IH.
Qed.

Lemma costs_find_image_on_screen image_path confidence_threshhold :
  costs 14 (find_image_on_screen image_path confidence_threshhold).
Proof.
  unfold find_image_on_screen. repeat costs_step.
Qed.

Lemma costs_twice n body : costs n body -> costs (n + n) (twice body).
Proof.
  intros H. unfold twice. apply costs_bind; [exact H | intros u; exact H].
Qed.

(** Every operation stays within its budget, in every world. *)
Lemma costs_exec o : costs (native_budget o) (exec o).
Proof.
  apply (costs_weaken _ (native_budget o + 0)); [lia |].
  destruct o; cbn [exec native_budget];
    (apply costs_bind; [| intros; apply costs_ret]).
  - apply (costs_weaken _ 2); [lia | apply costs_open].
  - apply (costs_weaken _ 1); [lia | apply costs_close].
  - unfold set_monitor. repeat costs_step.
  - unfold enter_full_screen. repeat costs_step.
  - unfold exit_full_screen. repeat costs_step.
  - unfold get_window_size. repeat costs_step.
  - apply (costs_weaken _ 1); [lia | apply costs_get_window_position].
  - unfold set_window_dimensions. do 2 costs_step.
    apply costs_bind_one; [apply costs_get_window_position |].
    intros p. repeat costs_step.
  - unfold set_window_position. repeat costs_step.
  - apply (costs_weaken _ 2); [lia | apply costs_left_click].
  - apply (costs_weaken _ 2); [lia | apply costs_right_click].
  - unfold left_double_click. costs_step.
    apply (costs_twice 2), costs_left_click.
  - unfold right_double_click. costs_step.
    apply (costs_twice 2), costs_right_click.
  - unfold press_key. repeat costs_step.
  - unfold typewrite. do 2 costs_step. apply costs_typewrite_chars.
  - apply costs_find_image_on_screen.
Qed.

(** [typewrite] on an attached window sends one [WM_CHAR] per character. *)
Lemma typewrite_chars_runs (orc : Oracle) text delay :
  never_raises orc ->
  forall s, exists evs,
    typewrite_chars text delay orc s
    = (Returned tt, {| self := self s; log := log s ++ evs |})
    /\ count is_native evs = String.length text
    /\ messages evs
       = map (fun c => (win32con.WM_CHAR, ord c)) (list_ascii_of_string text).
Proof.
  intros Hnr. induction text as [| c rest IH]; intros s; cbn [typewrite_chars].
  - exists []. rewrite app_nil_r. destruct s. repeat split.
  - unfold get_self, call. cbn.
    name_answer Hnr as r. name_answer Hnr as u.
    destruct (IH {| self := self s;
                    log := (log s ++ [win32gui_SendMessage (_hwnd (self s))
                                        win32con.WM_CHAR (ord c) 0 ~> r])
                             ++ [time_sleep delay ~> u] |})
      as [evs [Erest [Hc Hm]]].
    cbn [self log] in Erest.
    exists ([win32gui_SendMessage (_hwnd (self s)) win32con.WM_CHAR (ord c) 0 ~> r;
             time_sleep delay ~> u] ++ evs).
    split.
    + etransitivity; [exact Erest |]. rewrite <- !app_assoc. reflexivity.
    + rewrite count_app, messages_app, Hc, Hm. split; reflexivity.
Qed.

Lemma typewrite_runs (orc : Oracle) s text delay :
  truthy (_hwnd (self s)) = true ->
  never_raises orc ->
  exists evs,
    typewrite text delay orc s
    = (Returned tt, {| self := self s; log := log s ++ evs |})
    /\ count is_native evs = String.length text.
Proof.
  intros Hh Hnr. unfold typewrite. pass_guard Hh. pass_debug Hnr.
  destruct Hc as [Hn _].
  destruct (typewrite_chars_runs orc text delay Hnr
              {| self := self s; log := log s ++ ev |}) as [evs [E' [Hc _]]].
  cbn [self log] in E'. rewrite E', <- app_assoc.
  eexists. split; [reflexivity |].
  rewrite count_app, Hn, Hc. reflexivity.
Qed.

(** C5 (as amended).  In every world and on every input, an operation
    makes no more native calls (window system, process API, vision
    library) than its budget: three for every operation other than
    [typewrite], [find_image_on_screen] and the two double clicks; four for
    a double click; fourteen for [find_image_on_screen]; and for
    [typewrite] the length of the text.  [typewrite] on an attached window
    reaches that number when no call raises: it sends one message per
    character. *)
Theorem native_calls_within_budget (orc : Oracle) s o :
  (count is_native (emitted (exec o) orc s) <= native_budget o)%nat
  /\ forall text delay,
       o = op_typewrite text delay ->
       truthy (_hwnd (self s)) = true ->
       never_raises orc ->
       count is_native (emitted (exec o) orc s) = String.length text.
Proof.
  split.
  - destruct (costs_exec o orc s) as [evs [E Hc]].
    rewrite (emitted_app _ _ _ evs E). exact Hc.
  - intros text delay -> Hh Hnr.
    destruct (typewrite_runs orc s text delay Hh Hnr) as [evs [E Hc]].
    rewrite (emitted_app _ _ _ evs); [exact Hc |].
    cbn [exec]. rewrite snd_then_ret, E. reflexivity.
Qed.

(** C5 (as stated) fails: on the sample desktop, typing "hello" makes five
    native calls, [find_image_on_screen] fourteen and a double click
    four. *)
Lemma more_than_three_native_calls :
  count is_native
    (emitted (exec (op_typewrite "hello" 0.01%float)) (still desk) attached) = 5%nat
  /\ count is_native
       (emitted (exec (op_find_image_on_screen "button.png" 0%float)) (still desk) attached)
     = 14%nat
  /\ count is_native
       (emitted (exec (op_left_double_click 3 4)) (still desk) attached) = 4%nat.
Proof. repeat split. Qed.

(** * Further properties of the class *)

(** ** Attributes *)

(** X1.  No method other than [open] and [close] assigns an attribute:
    whatever the world answers and however the call ends, the instance
    holds the same handle, subprocess reference, kill flag and debug flag
    afterwards. *)
Theorem operations_keep_attributes orc s o :
  acts_on_window o = true ->
  is_close o = false ->
  self (snd (exec o orc s)) = self s.
Proof.
  intros Ha Hc.
  exact (keeps_exec (fun i => i = self s) o Ha Hc orc s eq_refl).
Qed.

Lemma operations_keep_attributes_witness :
  self (snd (exec (op_typewrite "hello" 0.01%float) (still desk) attached))
  = self attached.
Proof.
  exact (operations_keep_attributes (still desk) attached
           (op_typewrite "hello" 0.01%float) eq_refl eq_refl).
Defined.

(** X2.  The kill flag is never cleared: once it is set it stays set
    through every later history of method calls and thread runs, in any
    world. *)
Theorem kill_flag_never_cleared script s :
  __kill (self s) = true ->
  __kill (self (run_script script s)) = true.
Proof.
  intros H. exact (killed_run_script script s H).
Qed.

Lemma kill_flag_never_cleared_witness :
  __kill (self (run_script
                  [(still desk, act_call (op_open "app.exe" "App" 2%float));
                   (still desk, act_close_handler 5)]
                  closed_once)) = true.
Proof.
  exact (kill_flag_never_cleared
           [(still desk, act_call (op_open "app.exe" "App" 2%float));
            (still desk, act_close_handler 5)]
           closed_once eq_refl).
Defined.

(** X3.  The constructor starts the polling thread exactly when the handle
    it is given is truthy.  Given [None] or [0] it starts nothing, and on
    the new instance every operation on the window, [close] included,
    raises [NoOpenedProcess] and changes nothing. *)
Theorem constructor_attaches_truthy_handles orc hwnd debug :
  map ev_call (log (snd (__init__ hwnd debug orc blank)))
  = (if truthy hwnd then [Thread_start_close_handler] else [])
  /\ self (snd (__init__ hwnd debug orc blank))
     = {| _hwnd := hwnd; __process := None; __kill := false; _debug := debug |}
  /\ (truthy hwnd = false ->
      forall orc' o,
        acts_on_window o = true ->
        exec o orc' (snd (__init__ hwnd debug orc blank))
        = (Raised NoOpenedProcess, snd (__init__ hwnd debug orc blank))).
Proof.
  unfold __init__, put_self, call. cbn.
  destruct (truthy hwnd) eqn:Eh; cbn.
  - destruct (orc [] Thread_start_close_handler); cbn;
      (split; [reflexivity |]); (split; [reflexivity |]); discriminate.
  - split; [reflexivity |]. split; [reflexivity |].
    intros _ orc' o Ha.
    rewrite (falsy_hwnd_stops orc'
               {| self := {| _hwnd := hwnd; __process := None; __kill := false;
                             _debug := debug |};
                  log := [] |} o Ha Eh).
    cbn. rewrite andb_false_r. reflexivity.
Qed.

(** ** [set_monitor] *)

Lemma py_index_in_range {A} (l : list A) i :
  - Z.of_nat (List.length l) < i < Z.of_nat (List.length l) ->
  exists x, py_index l i = Some x.
Proof.
  intros H. unfold py_index.
  destruct (Z.leb_spec 0 i) as [Hi | Hi].
  - destruct (nth_error l (Z.to_nat i)) eqn:E; [eexists; reflexivity |].
    apply nth_error_None in E. lia.
  - destruct (Z.leb_spec 0 (Z.of_nat (List.length l) + i)) as [Hj | Hj]; [| lia].
    destruct (nth_error l (Z.to_nat (Z.of_nat (List.length l) + i))) eqn:E;
      [eexists; reflexivity |].
    apply nth_error_None in E. lia.
Qed.

(** X4.  With a window attached and [EnumDisplayMonitors] answering
    [monitors], [set_monitor n] accepts exactly the indices with
    [-len < n < len]: it then moves the window, with one [SetWindowPos]
    call carrying [SWP_NOSIZE], to the left and top of monitor [n] counted
    the Python way (negative [n] from the end).  Any other index, [-len]
    included, raises [InvalidScreen] before any [SetWindowPos]; it never
    raises [IndexError]. *)
Theorem set_monitor_accepts_open_range (orc : Oracle) s n monitors :
  truthy (_hwnd (self s)) = true ->
  never_raises orc ->
  orc (log s) win32api_EnumDisplayMonitors = Returned monitors ->
  (- Z.of_nat (List.length monitors) < n < Z.of_nat (List.length monitors) ->
   exists hmon hdc left top right bottom,
     py_index monitors n = Some (hmon, hdc, (left, top, right, bottom))
     /\ set_monitor n orc s
        = (Returned tt,
           {| self := self s;
              log := log s ++
                     [win32api_EnumDisplayMonitors ~> monitors;
                      win32gui_SetWindowPos (_hwnd (self s)) win32con.HWND_TOP
                        left top 0 0 win32con.SWP_NOSIZE ~> tt] |}))
  /\ (~ (- Z.of_nat (List.length monitors) < n < Z.of_nat (List.length monitors)) ->
      set_monitor n orc s
      = (Raised InvalidScreen,
         {| self := self s;
            log := log s ++ [win32api_EnumDisplayMonitors ~> monitors] |})).
Proof.
  intros Hh Hnr Hm. unfold set_monitor. pass_guard Hh.
  unfold call, get_self. cbn. rewrite Hm. cbn. split.
  - intros Hr.
    destruct (py_index_in_range monitors n Hr) as [[[hmon hdc] [[[l t] r] b]] Hx].
    exists hmon, hdc, l, t, r, b. split; [exact Hx |].
    replace ((n <? Z.of_nat (List.length monitors))
             && (n >? - Z.of_nat (List.length monitors))) with true
      by (symmetry; apply andb_true_iff; split; [apply Z.ltb_lt | apply Z.gtb_lt]; lia).
    rewrite Hx. cbn. answered Hnr. destruct v. rewrite <- app_assoc. reflexivity.
  - intros Hr.
    replace ((n <? Z.of_nat (List.length monitors))
             && (n >? - Z.of_nat (List.length monitors))) with false; [reflexivity |].
    symmetry. apply andb_false_iff.
    destruct (Z.ltb_spec n (Z.of_nat (List.length monitors))); [right | left; reflexivity].
    rewrite Z.gtb_ltb. apply Z.ltb_ge. lia.
Qed.

Lemma set_monitor_accepts_open_range_witness :
  (exists hmon hdc left top right bottom,
     py_index (w_monitors two_monitors) (-1) = Some (hmon, hdc, (left, top, right, bottom))
     /\ set_monitor (-1) (still two_monitors) attached
        = (Returned tt,
           {| self := self attached;
              log := log attached ++
                     [win32api_EnumDisplayMonitors ~> w_monitors two_monitors;
                      win32gui_SetWindowPos (_hwnd (self attached)) win32con.HWND_TOP
                        left top 0 0 win32con.SWP_NOSIZE ~> tt] |}))
  /\ fst (set_monitor (-2) (still two_monitors) attached) = Raised InvalidScreen.
Proof.
  destruct (set_monitor_accepts_open_range (still two_monitors) attached (-1)
              (w_monitors two_monitors) eq_refl (still_never_raises two_monitors) eq_refl)
    as [Hin _].
  destruct (set_monitor_accepts_open_range (still two_monitors) attached (-2)
              (w_monitors two_monitors) eq_refl (still_never_raises two_monitors) eq_refl)
    as [_ Hout].
  split.
  - apply Hin. cbn. lia.
  - rewrite Hout; [reflexivity |]. cbn. lia.
Defined.

(** ** Clicks, keys and text *)

Lemma without_prints_app l1 l2 :
  without_prints (l1 ++ l2) = without_prints l1 ++ without_prints l2.
Proof. unfold without_prints. apply filter_app. Qed.

(** What [__debug] adds to the log is at most one [print]. *)
Lemma debug_only_prints orc s title content :
  never_raises orc ->
  exists evs,
    __debug title content orc s
    = (Returned tt, {| self := self s; log := log s ++ evs |})
    /\ without_prints evs = []
    /\ messages evs = []
    /\ count is_Thread_start evs = 0%nat.
Proof.
  intros Hnr. unfold __debug. open_state s. destruct dbg; cbn.
  - answered Hnr. eexists. split; [reflexivity |]. repeat split.
  - exists []. rewrite app_nil_r. repeat split.
Qed.

Ltac skip_debug Hnr :=
  match goal with
  | |- context [bind (__debug ?t ?c) _ ?orc ?s] =>
      let ev := fresh "ev" in
      let E := fresh "E" in
      let Hw := fresh "Hw" in
      let Hm := fresh "Hm" in
      let Ht := fresh "Ht" in
      destruct (debug_only_prints orc s t c Hnr) as [ev [E [Hw [Hm Ht]]]];
      rewrite (bind_returned _ _ _ _ _ _ E)
  end.

(** The same when the binds around [__debug] are already unfolded. *)
Ltac run_debug Hnr :=
  match goal with
  | |- context [__debug ?t ?c ?orc ?s] =>
      let ev := fresh "ev" in
      let E := fresh "E" in
      let Hw := fresh "Hw" in
      let Hm := fresh "Hm" in
      let Ht := fresh "Ht" in
      destruct (debug_only_prints orc s t c Hnr) as [ev [E [Hw [Hm Ht]]]];
      rewrite E
  end.

Lemma left_click_runs (orc : Oracle) s x y :
  truthy (_hwnd (self s)) = true ->
  never_raises orc ->
  exists evs lparam1 r1 lparam2 r2,
    left_click x y orc s = (Returned tt, {| self := self s; log := log s ++ evs |})
    /\ without_prints evs
       = [win32api_MAKELONG x y ~> lparam1;
          win32gui_SendMessage (_hwnd (self s)) win32con.WM_LBUTTONDOWN
            win32con.MK_LBUTTON lparam1 ~> r1;
          time_sleep 0.1%float ~> tt;
          win32api_MAKELONG x y ~> lparam2;
          win32gui_SendMessage (_hwnd (self s)) win32con.WM_LBUTTONUP
            win32con.MK_LBUTTON lparam2 ~> r2].
Proof.
  intros Hh Hnr. unfold left_click. pass_guard Hh. skip_debug Hnr.
  unfold get_self, call. cbn.
  name_answer Hnr as lparam1. name_answer Hnr as r1. name_answer Hnr as u.
  name_answer Hnr as lparam2. name_answer Hnr as r2. destruct u.
  rewrite <- !app_assoc. eexists. exists lparam1, r1, lparam2, r2.
  split; [reflexivity |]. rewrite without_prints_app, Hw. reflexivity.
Qed.

Lemma right_click_runs (orc : Oracle) s x y :
  truthy (_hwnd (self s)) = true ->
  never_raises orc ->
  exists evs lparam1 r1 lparam2 r2,
    right_click x y orc s = (Returned tt, {| self := self s; log := log s ++ evs |})
    /\ without_prints evs
       = [win32api_MAKELONG x y ~> lparam1;
          win32gui_SendMessage (_hwnd (self s)) win32con.WM_RBUTTONDOWN
            win32con.MK_RBUTTON lparam1 ~> r1;
          time_sleep 0.1%float ~> tt;
          win32api_MAKELONG x y ~> lparam2;
          win32gui_SendMessage (_hwnd (self s)) win32con.WM_RBUTTONUP
            win32con.MK_RBUTTON lparam2 ~> r2].
Proof.
  intros Hh Hnr. unfold right_click. pass_guard Hh. skip_debug Hnr.
  unfold get_self, call. cbn.
  name_answer Hnr as lparam1. name_answer Hnr as r1. name_answer Hnr as u.
  name_answer Hnr as lparam2. name_answer Hnr as r2. destruct u.
  rewrite <- !app_assoc. eexists. exists lparam1, r1, lparam2, r2.
  split; [reflexivity |]. rewrite without_prints_app, Hw. reflexivity.
Qed.

(** X5.  With a window attached and no call raising, a click is a button
    down followed, a tenth of a second later, by a button up, both sent to
    the attached window with the button as [wparam] and with the point
    packed by [win32api.MAKELONG(x, y)] as [lparam]; apart from debug lines
    nothing else is called.  [left_click] uses the left button messages and
    [right_click] the right ones. *)
Theorem click_is_down_then_up (orc : Oracle) s x y :
  truthy (_hwnd (self s)) = true ->
  never_raises orc ->
  (exists lparam1 r1 lparam2 r2,
     fst (left_click x y orc s) = Returned tt
     /\ without_prints (emitted (left_click x y) orc s)
        = [win32api_MAKELONG x y ~> lparam1;
           win32gui_SendMessage (_hwnd (self s)) win32con.WM_LBUTTONDOWN
             win32con.MK_LBUTTON lparam1 ~> r1;
           time_sleep 0.1%float ~> tt;
           win32api_MAKELONG x y ~> lparam2;
           win32gui_SendMessage (_hwnd (self s)) win32con.WM_LBUTTONUP
             win32con.MK_LBUTTON lparam2 ~> r2])
  /\
  (exists lparam1 r1 lparam2 r2,
     fst (right_click x y orc s) = Returned tt
     /\ without_prints (emitted (right_click x y) orc s)
        = [win32api_MAKELONG x y ~> lparam1;
           win32gui_SendMessage (_hwnd (self s)) win32con.WM_RBUTTONDOWN
             win32con.MK_RBUTTON lparam1 ~> r1;
           time_sleep 0.1%float ~> tt;
           win32api_MAKELONG x y ~> lparam2;
           win32gui_SendMessage (_hwnd (self s)) win32con.WM_RBUTTONUP
             win32con.MK_RBUTTON lparam2 ~> r2]).
Proof.
  intros Hh Hnr. split.
  - destruct (left_click_runs orc s x y Hh Hnr) as [evs [l1 [r1 [l2 [r2 [E Hw]]]]]].
    exists l1, r1, l2, r2.
    rewrite (emitted_app _ _ _ evs); [| rewrite E; reflexivity].
    rewrite E. split; [reflexivity | exact Hw].
  - destruct (right_click_runs orc s x y Hh Hnr) as [evs [l1 [r1 [l2 [r2 [E Hw]]]]]].
    exists l1, r1, l2, r2.
    rewrite (emitted_app _ _ _ evs); [| rewrite E; reflexivity].
    rewrite E. split; [reflexivity | exact Hw].
Qed.

Lemma click_is_down_then_up_witness :
  exists lparam1 r1 lparam2 r2,
    fst (left_click 3 4 (still desk) attached) = Returned tt
    /\ without_prints (emitted (left_click 3 4) (still desk) attached)
       = [win32api_MAKELONG 3 4 ~> lparam1;
          win32gui_SendMessage (_hwnd (self attached)) win32con.WM_LBUTTONDOWN
            win32con.MK_LBUTTON lparam1 ~> r1;
          time_sleep 0.1%float ~> tt;
          win32api_MAKELONG 3 4 ~> lparam2;
          win32gui_SendMessage (_hwnd (self attached)) win32con.WM_LBUTTONUP
            win32con.MK_LBUTTON lparam2 ~> r2].
Proof.
  exact (proj1 (click_is_down_then_up (still desk) attached 3 4 eq_refl
                  (still_never_raises desk))).
Defined.

Lemma messages_without_prints l : messages (without_prints l) = messages l.
Proof.
  unfold without_prints, messages.
  induction l as [| [c out] l IH]; [reflexivity |].
  destruct c; cbn; rewrite ?IH; reflexivity.
Qed.

(** X6.  A double click is two clicks in a row: with a window attached and
    no call raising, [left_double_click] sends button down, up, down, up
    with the left button, and [right_double_click] the same with the right
    button. *)
Theorem double_click_is_two_clicks (orc : Oracle) s x y :
  truthy (_hwnd (self s)) = true ->
  never_raises orc ->
  (fst (left_double_click x y orc s) = Returned tt
   /\ messages (emitted (left_double_click x y) orc s)
      = [(win32con.WM_LBUTTONDOWN, win32con.MK_LBUTTON);
         (win32con.WM_LBUTTONUP, win32con.MK_LBUTTON);
         (win32con.WM_LBUTTONDOWN, win32con.MK_LBUTTON);
         (win32con.WM_LBUTTONUP, win32con.MK_LBUTTON)])
  /\
  (fst (right_double_click x y orc s) = Returned tt
   /\ messages (emitted (right_double_click x y) orc s)
      = [(win32con.WM_RBUTTONDOWN, win32con.MK_RBUTTON);
         (win32con.WM_RBUTTONUP, win32con.MK_RBUTTON);
         (win32con.WM_RBUTTONDOWN, win32con.MK_RBUTTON);
         (win32con.WM_RBUTTONUP, win32con.MK_RBUTTON)]).
Proof.
  intros Hh Hnr. split.
  - destruct (left_click_runs orc s x y Hh Hnr) as [e1 [a1 [b1 [c1 [d1 [E1 H1]]]]]].
    destruct (left_click_runs orc {| self := self s; log := log s ++ e1 |} x y Hh Hnr)
      as [e2 [a2 [b2 [c2 [d2 [E2 H2]]]]]].
    cbn [self log] in E2.
    assert (E : left_double_click x y orc s
                = (Returned tt, {| self := self s; log := log s ++ e1 ++ e2 |})).
    { unfold left_double_click, twice. pass_guard Hh.
      rewrite (bind_returned _ _ _ _ _ _ E1), E2, app_assoc. reflexivity. }
    rewrite (emitted_app _ _ _ (e1 ++ e2)); [| rewrite E; reflexivity].
    rewrite E. split; [reflexivity |].
    rewrite messages_app, <- (messages_without_prints e1),
      <- (messages_without_prints e2), H1, H2.
    reflexivity.
  - destruct (right_click_runs orc s x y Hh Hnr) as [e1 [a1 [b1 [c1 [d1 [E1 H1]]]]]].
    destruct (right_click_runs orc {| self := self s; log := log s ++ e1 |} x y Hh Hnr)
      as [e2 [a2 [b2 [c2 [d2 [E2 H2]]]]]].
    cbn [self log] in E2.
    assert (E : right_double_click x y orc s
                = (Returned tt, {| self := self s; log := log s ++ e1 ++ e2 |})).
    { unfold right_double_click, twice. pass_guard Hh.
      rewrite (bind_returned _ _ _ _ _ _ E1), E2, app_assoc. reflexivity. }
    rewrite (emitted_app _ _ _ (e1 ++ e2)); [| rewrite E; reflexivity].
    rewrite E. split; [reflexivity |].
    rewrite messages_app, <- (messages_without_prints e1),
      <- (messages_without_prints e2), H1, H2.
    reflexivity.
Qed.

Lemma double_click_is_two_clicks_witness :
  fst (right_double_click 3 4 (still desk) attached) = Returned tt
  /\ messages (emitted (right_double_click 3 4) (still desk) attached)
     = [(win32con.WM_RBUTTONDOWN, win32con.MK_RBUTTON);
        (win32con.WM_RBUTTONUP, win32con.MK_RBUTTON);
        (win32con.WM_RBUTTONDOWN, win32con.MK_RBUTTON);
        (win32con.WM_RBUTTONUP, win32con.MK_RBUTTON)].
Proof.
  exact (proj2 (double_click_is_two_clicks (still desk) attached 3 4 eq_refl
                  (still_never_raises desk))).
Defined.

(** X7.  With a window attached and no call raising, [typewrite] sends
    one [WM_CHAR] message per character of the text, in the order of the
    text, carrying the character's code point, and returns; for the empty
    text it sends nothing. *)
Theorem typewrite_sends_each_character (orc : Oracle) s text delay :
  truthy (_hwnd (self s)) = true ->
  never_raises orc ->
  fst (typewrite text delay orc s) = Returned tt
  /\ messages (emitted (typewrite text delay) orc s)
     = map (fun c => (win32con.WM_CHAR, ord c)) (list_ascii_of_string text).
Proof.
  intros Hh Hnr.
  assert (H : exists evs,
             typewrite text delay orc s
             = (Returned tt, {| self := self s; log := log s ++ evs |})
             /\ messages evs
                = map (fun c => (win32con.WM_CHAR, ord c)) (list_ascii_of_string text)).
  { unfold typewrite. pass_guard Hh. skip_debug Hnr.
    destruct (typewrite_chars_runs orc text delay Hnr
                {| self := self s; log := log s ++ ev |}) as [evs [E' [_ Hc]]].
    cbn [self log] in E'. rewrite E', <- app_assoc.
    eexists. split; [reflexivity |].
    rewrite messages_app, Hm, Hc. reflexivity. }
  destruct H as [evs [E Hc]].
  rewrite (emitted_app _ _ _ evs); [| rewrite E; reflexivity].
  rewrite E. split; [reflexivity | exact Hc].
Qed.

Lemma typewrite_sends_each_character_witness :
  fst (typewrite "Hi!" 0.01%float (still desk) attached) = Returned tt
  /\ messages (emitted (typewrite "Hi!" 0.01%float) (still desk) attached)
     = [(win32con.WM_CHAR, 72); (win32con.WM_CHAR, 105); (win32con.WM_CHAR, 33)].
Proof.
  exact (typewrite_sends_each_character (still desk) attached "Hi!" 0.01%float
           eq_refl (still_never_raises desk)).
Defined.

Lemma lower_length str : String.length (lower str) = String.length str.
Proof.
  induction str as [| c rest IH]; [reflexivity |]. cbn. rewrite IH. reflexivity.
Qed.

(** X8.  With a window attached and no call raising, [press_key] with a
    one-character string sends that character as a single [WM_CHAR], which
    is what [typewrite] sends for the same string; with any spelling of
    "enter" or "tab", whatever its capitals, it sends [WM_KEYDOWN] then
    [WM_KEYUP] for [VK_RETURN], respectively [VK_TAB]. *)
Theorem press_key_characters_and_special_keys (orc : Oracle) s :
  truthy (_hwnd (self s)) = true ->
  never_raises orc ->
  (forall c delay,
      messages (emitted (press_key (KeyStr (String c EmptyString))) orc s)
      = [(win32con.WM_CHAR, ord c)]
      /\ messages (emitted (typewrite (String c EmptyString) delay) orc s)
         = [(win32con.WM_CHAR, ord c)])
  /\ (forall str, lower str = "enter" ->
        messages (emitted (press_key (KeyStr str)) orc s)
        = [(win32con.WM_KEYDOWN, win32con.VK_RETURN);
           (win32con.WM_KEYUP, win32con.VK_RETURN)])
  /\ (forall str, lower str = "tab" ->
        messages (emitted (press_key (KeyStr str)) orc s)
        = [(win32con.WM_KEYDOWN, win32con.VK_TAB);
           (win32con.WM_KEYUP, win32con.VK_TAB)]).
Proof.
  intros Hh Hnr. split; [| split].
  - intros c delay. split.
    + destruct (press_key_runs orc s (KeyStr (String c EmptyString)) Hh Hnr)
        as [evs [E Hm]].
      rewrite (emitted_app _ _ _ evs); [exact Hm | rewrite E; reflexivity].
    + exact (proj2 (typewrite_sends_each_character orc s (String c EmptyString)
                      delay Hh Hnr)).
  - intros str Hl.
    destruct (press_key_runs orc s (KeyStr str) Hh Hnr) as [evs [E Hm]].
    rewrite (emitted_app _ _ _ evs); [| rewrite E; reflexivity].
    rewrite Hm, Hl.
    replace (String.length str =? 1)%nat with false; [reflexivity |].
    rewrite <- (lower_length str), Hl. reflexivity.
  - intros str Hl.
    destruct (press_key_runs orc s (KeyStr str) Hh Hnr) as [evs [E Hm]].
    rewrite (emitted_app _ _ _ evs); [| rewrite E; reflexivity].
    rewrite Hm, Hl.
    replace (String.length str =? 1)%nat with false; [reflexivity |].
    rewrite <- (lower_length str), Hl. reflexivity.
Qed.

Lemma press_key_characters_and_special_keys_witness :
  messages (emitted (press_key (KeyStr "x")) (still desk) attached)
  = [(win32con.WM_CHAR, 120)]
  /\ messages (emitted (press_key (KeyStr "ENTER")) (still desk) attached)
     = [(win32con.WM_KEYDOWN, 13); (win32con.WM_KEYUP, 13)]
  /\ messages (emitted (press_key (KeyStr "Tab")) (still desk) attached)
     = [(win32con.WM_KEYDOWN, 9); (win32con.WM_KEYUP, 9)].
Proof.
  destruct (press_key_characters_and_special_keys (still desk) attached eq_refl
              (still_never_raises desk)) as [Hc [He Ht]].
  split; [exact (proj1 (Hc "x"%char 0.01%float)) |].
  split; [exact (He "ENTER" eq_refl) | exact (Ht "Tab" eq_refl)].
Defined.

(** ** [open] *)

(** From here on [__debug] is stepped over with [run_debug], not unfolded. *)
Arguments __debug : simpl never.

(** X9.  On an instance without a handle, when the path exists, no call
    raises and the title lookup finds a first window with a nonzero handle
    [h], [open] returns; the instance then holds [h] and the process that
    [subprocess.Popen] gave, whatever subprocess reference it held before,
    with kill and debug flags untouched.  Apart from debug lines its calls
    are, in order: the path test, [Popen], the sleep of [delay_seconds],
    the title lookup and one thread start. *)
Theorem open_attaches_first_window (orc : Oracle) s exe_path app_title delay h rest :
  truthy (_hwnd (self s)) = false ->
  never_raises orc ->
  (forall l, orc l (os_path_exists exe_path) = Returned true) ->
  (forall l, orc l (gw_getWindowsWithTitle app_title) = Returned (h :: rest)) ->
  h <> 0 ->
  exists p evs,
    open exe_path app_title delay orc s
    = (Returned tt,
       {| self := {| _hwnd := Some h; __process := Some p;
                     __kill := __kill (self s); _debug := _debug (self s) |};
          log := log s ++ evs |})
    /\ without_prints evs
       = [os_path_exists exe_path ~> true;
          subprocess_Popen exe_path ~> p;
          time_sleep delay ~> tt;
          gw_getWindowsWithTitle app_title ~> h :: rest;
          Thread_start_close_handler ~> tt]
    /\ fst (Instance_hwnd orc
              {| self := {| _hwnd := Some h; __process := Some p;
                            __kill := __kill (self s); _debug := _debug (self s) |};
                 log := log s ++ evs |})
       = Returned (Some h).
Proof.
  intros Hh Hnr Hex Hwin Hnz. unfold open, get_self. cbn -[__debug].
  rewrite Hh. unfold call. cbn -[__debug]. rewrite Hex. cbn -[__debug].
  run_debug Hnr. cbn -[__debug].
  name_answer Hnr as p. name_answer Hnr as u. destruct u.
  cbn -[__debug]. rewrite Hwin. cbn -[__debug].
  assert (Ht' : truthy_int h = true).
  { unfold truthy_int. destruct (Z.eqb_spec h 0); [contradiction | reflexivity]. }
  rewrite Ht'. cbn -[__debug].
  run_debug Hnr. cbn.
  name_answer Hnr as u. destruct u.
  rewrite <- !app_assoc. exists p. eexists.
  split; [reflexivity |]. split; [| reflexivity].
  rewrite !without_prints_app, Hw, Hw0. reflexivity.
Qed.

Lemma open_attaches_first_window_witness :
  exists p evs,
    open "app.exe" "App" 2%float (still desk) detached
    = (Returned tt,
       {| self := {| _hwnd := Some 77; __process := Some p;
                     __kill := __kill (self detached);
                     _debug := _debug (self detached) |};
          log := log detached ++ evs |})
    /\ without_prints evs
       = [os_path_exists "app.exe" ~> true;
          subprocess_Popen "app.exe" ~> p;
          time_sleep 2%float ~> tt;
          gw_getWindowsWithTitle "App" ~> [77];
          Thread_start_close_handler ~> tt]
    /\ fst (Instance_hwnd (still desk)
              {| self := {| _hwnd := Some 77; __process := Some p;
                            __kill := __kill (self detached);
                            _debug := _debug (self detached) |};
                 log := log detached ++ evs |})
       = Returned (Some 77).
Proof.
  apply (open_attaches_first_window (still desk) detached "app.exe" "App" 2%float 77 []).
  - reflexivity.
  - apply still_never_raises.
  - intros l. reflexivity.
  - intros l. reflexivity.
  - discriminate.
Defined.

Lemma never_raises_library_errors orc : never_raises orc -> raises_library_errors orc.
Proof.
  intros Hnr l c e H. destruct (Hnr l c) as [v Hv]. rewrite Hv in H. discriminate.
Qed.

(** X10.  In any world whose libraries raise only their own exceptions:
    if the title lookup of [open] raises, finds no window or finds a window
    whose handle is 0, [open] raises [NoHwnd]; and whenever [open] raises
    [NoHwnd], the subprocess it has started is still referenced by the
    instance, no polling thread has been started, and the instance still
    has no usable handle, so that a further [open] is not refused. *)
Theorem open_without_window_keeps_subprocess orc s exe_path app_title delay :
  raises_library_errors orc ->
  (existsb lookup_found_nothing (emitted (open exe_path app_title delay) orc s) = true ->
   fst (open exe_path app_title delay orc s) = Raised NoHwnd)
  /\
  (fst (open exe_path app_title delay orc s) = Raised NoHwnd ->
   exists p,
     __process (self (snd (open exe_path app_title delay orc s))) = Some p
     /\ In (subprocess_Popen exe_path ~> p) (emitted (open exe_path app_title delay) orc s)
     /\ count is_Thread_start (emitted (open exe_path app_title delay) orc s) = 0%nat
     /\ truthy (_hwnd (self (snd (open exe_path app_title delay orc s)))) = false).
Proof.
  intros Hlib. unfold emitted, open, __debug. open_state s.
  destruct (truthy hwnd) eqn:Eh; cbn.
  - cut_log. split; discriminate.
  - destruct dbg;
      repeat (cbn;
              first [ ask orc
                    | match goal with
                      | |- context [match ?l with [] => _ | _ :: _ => _ end] =>
                          is_var l; destruct l
                      | |- context [if negb ?b then _ else _] => destruct b eqn:?
                      end ]);
      cbn; cut_log;
      repeat match goal with H : truthy_int _ = _ |- _ => rewrite H end; cbn;
      (split; [ try discriminate; reflexivity | ]);
      intros Hn;
      first [ discriminate Hn
            | injection Hn as ->; exfalso;
              match goal with
              | Hq : orc _ _ = Raised NoHwnd |- _ =>
                  destruct (Hlib _ _ _ Hq) as [what Hwhat]; discriminate Hwhat
              end
            | clear Hn; eexists; (split; [reflexivity |]);
              (split; [auto 10 |]); (split; [reflexivity |]);
              first [ exact Eh | cbn; assumption | reflexivity ] ].
Qed.

Lemma open_without_window_keeps_subprocess_witness :
  fst (open "app.exe" "App" 2%float (still no_such_window) detached) = Raised NoHwnd
  /\ exists p,
       __process (self orphaned) = Some p
       /\ In (subprocess_Popen "app.exe" ~> p)
            (emitted (open "app.exe" "App" 2%float) (still no_such_window) detached)
       /\ count is_Thread_start
            (emitted (open "app.exe" "App" 2%float) (still no_such_window) detached)
          = 0%nat
       /\ truthy (_hwnd (self orphaned)) = false.
Proof.
  destruct (open_without_window_keeps_subprocess (still no_such_window) detached
              "app.exe" "App" 2%float
              (never_raises_library_errors _ (still_never_raises no_such_window)))
    as [Hraise Hkeep].
  split; [exact (Hraise eq_refl) |].
  exact (Hkeep (Hraise eq_refl)).
Defined.

(** ** [close] *)

(** X11.  With the kill flag clear, a window attached and no call
    raising, [close] makes exactly one call besides debug lines: it
    terminates the subprocess when the instance has one, and otherwise
    posts [WM_CLOSE] to the attached window (never both).  Afterwards the
    handle and the subprocess reference are [None], the property [hwnd]
    reads [None], the kill flag is set and the debug flag is as before. *)
Theorem close_terminates_or_posts (orc : Oracle) s :
  __kill (self s) = false ->
  truthy (_hwnd (self s)) = true ->
  never_raises orc ->
  exists evs,
    close orc s
    = (Returned tt,
       {| self := {| _hwnd := None; __process := None; __kill := true;
                     _debug := _debug (self s) |};
          log := log s ++ evs |})
    /\ without_prints evs
       = match __process (self s) with
         | Some p => [Popen_terminate p ~> tt]
         | None => [win32gui_PostMessage (_hwnd (self s)) win32con.WM_CLOSE 0 0 ~> tt]
         end
    /\ fst (Instance_hwnd orc (snd (close orc s))) = Returned None.
Proof.
  intros Hk Hh Hnr. unfold close, get_self, set_kill, set_process, set_hwnd, put_self, call.
  cbn. rewrite Hk. cbn. rewrite Hh. cbn.
  run_debug Hnr. cbn.
  destruct (__process (self s)) as [p |]; cbn.
  - run_debug Hnr. cbn. name_answer Hnr as u. destruct u.
    run_debug Hnr. cbn. rewrite <- !app_assoc. eexists.
    split; [reflexivity |]. split; [| reflexivity].
    rewrite !without_prints_app, Hw, Hw0, Hw1. reflexivity.
  - name_answer Hnr as u. destruct u.
    run_debug Hnr. cbn. rewrite <- !app_assoc. eexists.
    split; [reflexivity |]. split; [| reflexivity].
    rewrite !without_prints_app, Hw, Hw0. reflexivity.
Qed.

Lemma close_terminates_or_posts_witness :
  (exists evs,
     close (still desk) attached
     = (Returned tt,
        {| self := {| _hwnd := None; __process := None; __kill := true;
                      _debug := _debug (self attached) |};
           log := log attached ++ evs |})
     /\ without_prints evs
        = [win32gui_PostMessage (Some 77) win32con.WM_CLOSE 0 0 ~> tt]
     /\ fst (Instance_hwnd (still desk) (snd (close (still desk) attached)))
        = Returned None)
  /\
  (exists evs,
     close (still desk) opened
     = (Returned tt,
        {| self := {| _hwnd := None; __process := None; __kill := true;
                      _debug := _debug (self opened) |};
           log := log opened ++ evs |})
     /\ without_prints evs = [Popen_terminate {| pid := 4242 |} ~> tt]
     /\ fst (Instance_hwnd (still desk) (snd (close (still desk) opened)))
        = Returned None).
Proof.
  split.
  - exact (close_terminates_or_posts (still desk) attached eq_refl eq_refl
             (still_never_raises desk)).
  - exact (close_terminates_or_posts (still desk) opened eq_refl eq_refl
             (still_never_raises desk)).
Defined.

Lemma close_raised orc s e s' :
  __kill (self s) = false ->
  truthy (_hwnd (self s)) = true ->
  close orc s = (Raised e, s') ->
  __kill (self s') = true
  /\ _debug (self s') = _debug (self s)
  /\ (existsb native_raised (emitted close orc s) = true ->
      _hwnd (self s') = _hwnd (self s) /\ __process (self s') = __process (self s)).
Proof.
  unfold emitted, close, __debug. open_state s. intros -> Hh. cbn. rewrite Hh. cbn.
  destruct dbg; cbn; destruct proc; cbn; repeat ask orc; cut_log;
    intros H; try discriminate H; injection H as <- <-; cbn;
    (split; [reflexivity |]); (split; [reflexivity |]);
    first [ discriminate | intros _; split; reflexivity ].
Qed.

(** X12.  If [close], started with the kill flag clear and a window
    attached, raises, the kill flag is set all the same; so every later
    [close] returns at once and does nothing.  In particular, when it was
    the native call ([terminate] or [PostMessage]) that raised, the handle
    and the subprocess reference are still in place and can no longer be
    released through [close]. *)
Theorem failed_close_cannot_be_retried orc s e s' :
  __kill (self s) = false ->
  truthy (_hwnd (self s)) = true ->
  close orc s = (Raised e, s') ->
  __kill (self s') = true
  /\ (forall orc', close orc' s' = (Returned tt, s'))
  /\ (existsb native_raised (emitted close orc s) = true ->
      _hwnd (self s') = _hwnd (self s) /\ __process (self s') = __process (self s)).
Proof.
  intros Hk Hh Hc. destruct (close_raised orc s e s' Hk Hh Hc) as [Hk' [_ Hn]].
  split; [exact Hk' |]. split; [| exact Hn].
  intros orc'. apply close_when_killed. exact Hk'.
Qed.

Lemma failed_close_cannot_be_retried_witness :
  fst (close (failing is_PostMessage desk) attached)
  = Raised (LibraryError "pywintypes.error")
  /\ _hwnd (self (snd (close (failing is_PostMessage desk) attached))) = Some 77
  /\ close (still desk) (snd (close (failing is_PostMessage desk) attached))
     = (Returned tt, snd (close (failing is_PostMessage desk) attached)).
Proof.
  destruct (failed_close_cannot_be_retried (failing is_PostMessage desk) attached
              (LibraryError "pywintypes.error")
              (snd (close (failing is_PostMessage desk) attached))
              eq_refl eq_refl eq_refl) as [_ [Hagain Hsame]].
  split; [reflexivity |].
  split; [exact (proj1 (Hsame eq_refl)) |].
  exact (Hagain (still desk)).
Defined.

(** ** [find_image_on_screen] *)

(** X13.  [find_image_on_screen] with a window attached and a path that
    [os.path.exists] denies raises [InvalidPath] having made no call but
    the path test: nothing is read, captured or matched. *)
Theorem find_image_on_screen_missing_file (orc : Oracle) s image_path threshhold :
  truthy (_hwnd (self s)) = true ->
  orc (log s) (os_path_exists image_path) = Returned false ->
  find_image_on_screen image_path threshhold orc s
  = (Raised InvalidPath,
     {| self := self s; log := log s ++ [os_path_exists image_path ~> false] |}).
Proof.
  intros Hh He. unfold find_image_on_screen. pass_guard Hh.
  unfold call. cbn. rewrite He. reflexivity.
Qed.

Lemma find_image_on_screen_missing_file_witness :
  find_image_on_screen "gone.png" 0%float (still no_such_file) attached
  = (Raised InvalidPath,
     {| self := self attached;
        log := log attached ++ [os_path_exists "gone.png" ~> false] |}).
Proof.
  exact (find_image_on_screen_missing_file (still no_such_file) attached "gone.png"
           0%float eq_refl eq_refl).
Defined.

(** X14.  In any world: when [cv2.imread] returns [None] (the path exists
    but holds no readable image), [find_image_on_screen] never returns a
    position or [None]; it ends in an exception, and when no library call
    raises, that exception is the [AttributeError] of reading [shape] off
    [None], reached only after the whole capture and match have run. *)
Theorem find_image_on_screen_unreadable_image orc s image_path threshhold :
  existsb unreadable (emitted (find_image_on_screen image_path threshhold) orc s) = true ->
  exists e,
    fst (find_image_on_screen image_path threshhold orc s) = Raised e
    /\ (never_raises orc ->
        e = AttributeError
        /\ count is_matchTemplate
             (emitted (find_image_on_screen image_path threshhold) orc s) = 1%nat).
Proof.
  unfold emitted, find_image_on_screen, require_hwnd, shape_of, tuple_item, nth_error.
  open_state s. destruct (truthy hwnd) eqn:Eh; cbn; [| cut_log; discriminate].
  repeat (cbn;
          first [ ask orc
                | match goal with
                  | |- context [if negb ?b then _ else _] => is_var b; destruct b
                  | |- context [match ?x with (_, _) => _ end] => is_var x; destruct x
                  | |- context [match ?x with Some _ => _ | None => _ end] =>
                      is_var x; destruct x
                  | |- context [match ?l with [] => _ | _ :: _ => _ end] => destruct l
                  | |- context [if PrimFloat.ltb ?a ?b then _ else _] =>
                      destruct (PrimFloat.ltb a b)
                  end ]);
    cbn; cut_log;
    first [ discriminate
          | intros _; eexists; split; [reflexivity |];
            intros Hnr;
            first [ split; reflexivity
                  | exfalso;
                    match goal with
                    | Hq : orc ?l ?c = Raised _ |- _ =>
                        destruct (Hnr l c) as [v Hv]; rewrite Hv in Hq; discriminate Hq
                    end ] ].
Qed.

Lemma find_image_on_screen_unreadable_image_witness :
  exists e,
    fst (find_image_on_screen "notes.txt" 0%float (still two_monitors) attached) = Raised e
    /\ (never_raises (still two_monitors) ->
        e = AttributeError
        /\ count is_matchTemplate
             (emitted (find_image_on_screen "notes.txt" 0%float) (still two_monitors) attached)
           = 1%nat).
Proof.
  exact (find_image_on_screen_unreadable_image (still two_monitors) attached
           "notes.txt" 0%float eq_refl).
Defined.

(** ** The polling thread while the window lives *)

Lemma poll_while_alive (orc : Oracle) :
  never_raises orc ->
  (forall l h, orc l (win32gui_IsWindow h) = Returned true) ->
  forall fuel s,
    __kill (self s) = false ->
    exists evs,
      poll fuel orc s = (Returned false, {| self := self s; log := log s ++ evs |})
      /\ count is_IsWindow evs = fuel
      /\ count is_native evs = fuel.
Proof.
  intros Hnr Halive. induction fuel as [| fuel IH]; intros s Hk.
  - exists []. rewrite app_nil_r. destruct s. repeat split.
  - cbn [poll]. unfold get_self, call. cbn. rewrite Hk. cbn.
    rewrite Halive. cbn. name_answer Hnr as u.
    destruct (IH {| self := self s;
                    log := (log s ++ [win32gui_IsWindow (_hwnd (self s)) ~> true])
                             ++ [time_sleep 1%float ~> u] |} Hk)
      as [evs [Erest [Hw Hn]]].
    cbn [self log] in Erest.
    exists ([win32gui_IsWindow (_hwnd (self s)) ~> true; time_sleep 1%float ~> u] ++ evs).
    split.
    + etransitivity; [exact Erest |]. rewrite <- !app_assoc. reflexivity.
    + rewrite !count_app, Hw, Hn. split; reflexivity.
Qed.

(** X15.  While the kill flag is clear and [IsWindow] keeps answering
    true, the polling thread stays in its loop: however long it is run, it
    has polled once per round (sleeping a second after each poll), has not
    called [close], and has left the instance as it was. *)
Theorem close_handler_polls_while_window_lives (orc : Oracle) s fuel :
  never_raises orc ->
  (forall l h, orc l (win32gui_IsWindow h) = Returned true) ->
  __kill (self s) = false ->
  fst (_close_handler fuel orc s) = Returned false
  /\ self (snd (_close_handler fuel orc s)) = self s
  /\ count is_IsWindow (emitted (_close_handler fuel) orc s) = fuel
  /\ count is_native (emitted (_close_handler fuel) orc s) = fuel.
Proof.
  intros Hnr Halive Hk.
  assert (H : exists evs,
             _close_handler fuel orc s
             = (Returned false, {| self := self s; log := log s ++ evs |})
             /\ count is_IsWindow evs = fuel /\ count is_native evs = fuel).
  { unfold _close_handler. pass_debug Hnr. destruct Hc as [Hn1 [Hw1 _]].
    destruct (poll_while_alive orc Hnr Halive fuel
                {| self := self s; log := log s ++ ev |} Hk) as [evs [E2 [Hw2 Hn2]]].
    cbn [self log] in E2. rewrite (bind_returned _ _ _ _ _ _ E2).
    exists (ev ++ evs). rewrite app_assoc. split; [reflexivity |].
    rewrite !count_app, Hn1, Hw1, Hw2, Hn2. split; reflexivity. }
  destruct H as [evs [E [Hw Hn]]].
  rewrite (emitted_app _ _ _ evs); [| rewrite E; reflexivity].
  rewrite E. repeat split; assumption.
Qed.

Lemma close_handler_polls_while_window_lives_witness :
  fst (_close_handler 25 (still desk) opened) = Returned false
  /\ self (snd (_close_handler 25 (still desk) opened)) = self opened
  /\ count is_IsWindow (emitted (_close_handler 25) (still desk) opened) = 25%nat
  /\ count is_native (emitted (_close_handler 25) (still desk) opened) = 25%nat.
Proof.
  apply (close_handler_polls_while_window_lives (still desk) opened 25).
  - apply still_never_raises.
  - intros l h. reflexivity.
  - reflexivity.
Defined.

(** X16.  With the kill flag clear and a window attached, if no call
    raises and the window stops being valid after [n] polls, the polling
    thread, given enough rounds, leaves its loop and closes the instance:
    the kill flag is set and the handle and the subprocess reference are
    [None]. *)
Theorem close_handler_closes_when_window_goes orc n fuel s :
  never_raises orc ->
  gone_after n orc ->
  __kill (self s) = false ->
  truthy (_hwnd (self s)) = true ->
  (0 < fuel)%nat ->
  (n < fuel + count is_IsWindow (log s))%nat ->
  exists s',
    _close_handler fuel orc s = (Returned true, s')
    /\ __kill (self s') = true
    /\ _hwnd (self s') = None
    /\ __process (self s') = None.
Proof.
  intros Hnr Hgone Hk Hh Hpos Hn.
  exact (close_handler_detects_closure orc n fuel s Hnr Hgone Hk Hh Hpos Hn).
Qed.

Lemma close_handler_closes_when_window_goes_witness :
  exists s',
    _close_handler 4 (dies_after 2 desk) attached = (Returned true, s')
    /\ __kill (self s') = true
    /\ _hwnd (self s') = None
    /\ __process (self s') = None.
Proof.
  apply (close_handler_closes_when_window_goes (dies_after 2 desk) 2 4 attached).
  - apply dies_after_never_raises.
  - apply dies_after_gone.
  - reflexivity.
  - reflexivity.
  - lia.
  - cbn. lia.
Defined.

(** ** Debug output *)

Lemma quiet_ret {A} (a : A) : quiet (ret a).
Proof.
  intros orc s H. split; [exact H |]. exists []. rewrite app_nil_r. split; reflexivity.
Qed.

Lemma quiet_raise {A} (e : exn) : quiet (raise e : M A).
Proof.
  intros orc s H. split; [exact H |]. exists []. rewrite app_nil_r. split; reflexivity.
Qed.

Lemma quiet_get_self : quiet get_self.
Proof.
  intros orc s H. split; [exact H |]. exists []. rewrite app_nil_r. split; reflexivity.
Qed.

Lemma quiet_call (c : Call) : is_print c = false -> quiet (call c).
Proof.
  intros Hc orc s H. split; [exact H |]. eexists. split; [reflexivity |].
  unfold count. cbn. rewrite Hc. reflexivity.
Qed.

Lemma quiet_bind {A B} (m : M A) (k : A -> M B) :
  quiet m -> (forall a, quiet (k a)) -> quiet (bind m k).
Proof.
  intros Hm Hk orc s H. cbn. destruct (Hm orc s H) as [Hd [e1 [E1 H1]]].
  destruct (m orc s) as [[a | e] s1]; cbn in *.
  - destruct (Hk a orc s1 Hd) as [Hd2 [e2 [E2 H2]]].
    split; [exact Hd2 |]. exists (e1 ++ e2).
    rewrite E2, E1, app_assoc, count_app, H1, H2. split; reflexivity.
  - split; [exact Hd |]. exists e1. split; assumption.
Qed.

Lemma quiet_catch {A} (m : M A) (h : exn -> M A) :
  quiet m -> (forall e, quiet (h e)) -> quiet (catch m h).
Proof.
  intros Hm Hh orc s H. cbn. destruct (Hm orc s H) as [Hd [e1 [E1 H1]]].
  destruct (m orc s) as [[a | e] s1]; cbn in *.
  - split; [exact Hd |]. exists e1. split; assumption.
  - destruct (Hh e orc s1 Hd) as [Hd2 [e2 [E2 H2]]].
    split; [exact Hd2 |]. exists (e1 ++ e2).
    rewrite E2, E1, app_assoc, count_app, H1, H2. split; reflexivity.
Qed.

Lemma quiet_debug title content : quiet (__debug title content).
Proof.
  intros orc s H. unfold __debug, get_self. cbn. rewrite H. cbn.
  split; [exact H |]. exists []. rewrite app_nil_r. split; reflexivity.
Qed.

Lemma quiet_set_hwnd h : quiet (set_hwnd h).
Proof.
  intros orc s H. cbn. split; [exact H |]. exists []. rewrite app_nil_r.
  split; reflexivity.
Qed.

Lemma quiet_set_process p : quiet (set_process p).
Proof.
  intros orc s H. cbn. split; [exact H |]. exists []. rewrite app_nil_r.
  split; reflexivity.
Qed.

Lemma quiet_set_kill b : quiet (set_kill b).
Proof.
  intros orc s H. cbn. split; [exact H |]. exists []. rewrite app_nil_r.
  split; reflexivity.
Qed.

Ltac quiet_step :=
  match goal with
  | H : quiet ?m |- quiet ?m => exact H
  | |- quiet (ret _) => apply quiet_ret
  | |- quiet (raise _) => apply quiet_raise
  | |- quiet get_self => apply quiet_get_self
  | |- quiet (__debug _ _) => apply quiet_debug
  | |- quiet (set_hwnd _) => apply quiet_set_hwnd
  | |- quiet (set_process _) => apply quiet_set_process
  | |- quiet (set_kill _) => apply quiet_set_kill
  | |- quiet (call ?c) => exact (quiet_call c eq_refl)
  | |- quiet (bind _ _) => apply quiet_bind; [ | intros ? ]
  | |- quiet (catch _ _) => apply quiet_catch; [ | intros ? ]
  | |- quiet (if ?b then _ else _) => destruct b
  | |- quiet (match ?x with _ => _ end) => destruct x
  end.

Lemma quiet_typewrite_chars text delay : quiet (typewrite_chars text delay).
Proof.
  induction text as [| c rest IH]; cbn [typewrite_chars]; repeat quiet_step.
Qed.

Lemma quiet_poll fuel : quiet (poll fuel).
Proof.
  induction fuel as [| n IH]; cbn [poll]; repeat quiet_step.
Qed.

Lemma quiet_close : quiet close.
Proof. unfold close. repeat quiet_step. Qed.

Lemma quiet_perform a : quiet (perform a).
Proof.
  pose proof quiet_close as Hc.
  destruct a as [o | fuel]; unfold perform.
  - destruct o; cbn [exec];
      unfold open, set_monitor, enter_full_screen, exit_full_screen, get_window_size,
        set_window_dimensions, get_window_position, set_window_position,
        left_double_click, right_double_click, twice, left_click, right_click,
        press_key, typewrite, find_image_on_screen, shape_of, tuple_item, require_hwnd;
      repeat match goal with
        | |- quiet (typewrite_chars _ _) => apply quiet_typewrite_chars
        | _ => quiet_step
        end.
  - unfold _close_handler.
    repeat match goal with
      | |- quiet (poll _) => apply quiet_poll
      | _ => quiet_step
      end.
Qed.

(** X17.  With debugging off nothing is ever printed: through any history
    of method calls and thread runs, in any world, the debug flag stays
    off and the log gains no [print]. *)
Theorem debug_off_prints_nothing script s :
  _debug (self s) = false ->
  _debug (self (run_script script s)) = false
  /\ count is_print (log (run_script script s)) = count is_print (log s).
Proof.
  revert s. induction script as [| [orc a] rest IH]; intros s H; cbn [run_script].
  - split; [exact H | reflexivity].
  - destruct (quiet_perform a orc s H) as [Hd [evs [E Hc]]].
    destruct (IH _ Hd) as [Hd' Hc'].
    split; [exact Hd' |].
    rewrite Hc', E, count_app, Hc. apply Nat.add_0_r.
Qed.

Lemma debug_off_prints_nothing_witness :
  count is_print
    (log (run_script
            [(still desk, act_call (op_open "app.exe" "App" 2%float));
             (still desk, act_call (op_typewrite "hello" 0.01%float));
             (still desk, act_call op_close)]
            detached))
  = 0%nat.
Proof.
  exact (proj2 (debug_off_prints_nothing
                  [(still desk, act_call (op_open "app.exe" "App" 2%float));
                   (still desk, act_call (op_typewrite "hello" 0.01%float));
                   (still desk, act_call op_close)]
                  detached eq_refl)).
Defined.
